(** * calendario-harmonia: the calendar page script (static/js/calendar.js)

    A shallow embedding of the script that draws the month grids and the
    list of events, and the properties its specification states about it.

    Conventions of the embedding.
    - A JavaScript number that the script only uses as an integer is a [Z];
      where the script can meet [NaN] (an Invalid Date) or [null] (a [NaN]
      after [JSON.stringify]/[JSON.parse]) the value is an [option Z].
    - A JavaScript string is a [string] (its UTF-8 bytes).
    - [Date] is the ECMAScript Date: a time value in milliseconds since the
      epoch, UTC, read through the local time zone of the browser.  The zone
      is a parameter [tz], the offset of local time from UTC in minutes
      (Brasilia time is [-180]); it is taken constant over time.
    - [Date.parse] is modelled on the date-only ISO form [YYYY-MM-DD], the
      form the data model prescribes; every other string is an Invalid Date.
    - An object used as a map is the list of its properties in insertion
      order; the two style tables are read on their own keys.
    - [Array.prototype.sort] is stable.
    - The document is the part of it the script writes: the children of the
      two containers, the two info texts, the logo and the console.  An
      element is a record of the properties the script sets.
    - A function of the script that reads or writes the globals or the
      document takes the page and returns it; [loadData] also takes what its
      request comes to, and returns the exception it ends with, if any. *)

From Stdlib Require Import ZArith List String Ascii Bool Lia Permutation Sorted.
From Stdlib Require Import DecimalString.
Import ListNotations.
Open Scope string_scope.
Open Scope list_scope.
Open Scope Z_scope.

(** ** The ECMAScript Date object *)

Module JsDate.

Definition msPerDay : Z := 86400000.
Definition msPerMinute : Z := 60000.
Definition maxTime : Z := 8640000000000000.

(** Day number (days since 1970-01-01) of a proleptic Gregorian date;
    [m] counts from 1. *)
Definition days_from_civil (y m d : Z) : Z :=
  let y' := if m <=? 2 then y - 1 else y in
  let era := y' / 400 in
  let yoe := y' - era * 400 in
  let mp := if 2 <? m then m - 3 else m + 9 in
  let doy := (153 * mp + 2) / 5 + d - 1 in
  let doe := yoe * 365 + yoe / 4 - yoe / 100 + doy in
  era * 146097 + doe - 719468.

(** The date of a day number: year, month (from 1) and day of the month. *)
Definition civil_from_days (z : Z) : Z * Z * Z :=
  let z' := z + 719468 in
  let era := z' / 146097 in
  let doe := z' - era * 146097 in
  let yoe := (doe - doe / 1460 + doe / 36524 - doe / 146096) / 365 in
  let doy := doe - (365 * yoe + yoe / 4 - yoe / 100) in
  let mp := (5 * doy + 2) / 153 in
  let d := doy - (153 * mp + 2) / 5 + 1 in
  let m := if mp <? 10 then mp + 3 else mp - 9 in
  ((if m <=? 2 then yoe + era * 400 + 1 else yoe + era * 400), m, d).

Definition isLeap (y : Z) : bool :=
  ((y mod 4 =? 0) && negb (y mod 100 =? 0)) || (y mod 400 =? 0).

(** Length of month [m] (from 1) of year [y] in the Gregorian calendar. *)
Definition daysIn (y m : Z) : Z :=
  if m =? 2 then (if isLeap y then 29 else 28)
  else if (m =? 4) || (m =? 6) || (m =? 9) || (m =? 11) then 30
  else 31.

Definition Day (t : Z) : Z := t / msPerDay.
Definition WeekDay (t : Z) : Z := (Day t + 4) mod 7.

(** [MakeDay(year, month, date)]: the month counts from 0 and overflows
    into the year; the date overflows into the neighbouring months. *)
Definition MakeDay (year month date : Z) : Z :=
  days_from_civil (year + month / 12) (month mod 12 + 1) 1 + date - 1.

Definition TimeClip (t : Z) : option Z :=
  if Z.abs t <=? maxTime then Some t else None.

Definition LocalTime (tz t : Z) : Z := t + tz * msPerMinute.
Definition UTC (tz t : Z) : Z := t - tz * msPerMinute.

(** A Date object: its time value, [None] for an Invalid Date. *)
Definition t := option Z.

(** [new Date(year, month, date)]: the fields are local time, and a year
    from 0 to 99 stands for 1900 to 1999. *)
Definition ofFields (tz year month date : Z) : t :=
  let yr := if (0 <=? year) && (year <=? 99) then 1900 + year else year in
  TimeClip (UTC tz (MakeDay yr month date * msPerDay)).

Definition digit (c : ascii) : option Z :=
  let n := Z.of_nat (nat_of_ascii c) in
  if (48 <=? n) && (n <=? 57) then Some (n - 48) else None.

Definition isDash (c : ascii) : bool := Ascii.eqb c "-"%char.

Definition num2 (a b : ascii) : option Z :=
  match digit a, digit b with
  | Some x, Some y => Some (10 * x + y)
  | _, _ => None
  end.

Definition num4 (a b c d : ascii) : option Z :=
  match num2 a b, num2 c d with
  | Some x, Some y => Some (100 * x + y)
  | _, _ => None
  end.

(** The fields of a string of the form [YYYY-MM-DD], month from 01 to 12
    and day from 01 to 31; a day past the end of its month runs over into
    the next month, as in V8. *)
Definition isoFields (s : string) : option (Z * Z * Z) :=
  match list_ascii_of_string s with
  | [y1; y2; y3; y4; s1; m1; m2; s2; d1; d2] =>
      if isDash s1 && isDash s2 then
        match num4 y1 y2 y3 y4, num2 m1 m2, num2 d1 d2 with
        | Some y, Some m, Some d =>
            if (1 <=? m) && (m <=? 12) && (1 <=? d) && (d <=? 31)
            then Some (y, m, d) else None
        | _, _, _ => None
        end
      else None
  | _ => None
  end.

(** [new Date(string)]: a date-only form is midnight UTC of that date. *)
Definition parse (s : string) : t :=
  match isoFields s with
  | Some (y, m, d) => TimeClip (MakeDay y (m - 1) d * msPerDay)
  | None => None
  end.

Definition localDate (tz : Z) (d : t) : option (Z * Z * Z) :=
  option_map (fun v => civil_from_days (Day (LocalTime tz v))) d.

Definition getFullYear (tz : Z) (d : t) : option Z :=
  option_map (fun '(y, _, _) => y) (localDate tz d).

(** [getMonth()] counts from 0. *)
Definition getMonth (tz : Z) (d : t) : option Z :=
  option_map (fun '(_, m, _) => m - 1) (localDate tz d).

Definition getDate (tz : Z) (d : t) : option Z :=
  option_map (fun '(_, _, dd) => dd) (localDate tz d).

(** [getDay()]: 0 is Sunday. *)
Definition getDay (tz : Z) (d : t) : option Z :=
  option_map (fun v => WeekDay (LocalTime tz v)) d.

(** The long month names of the pt-BR locale, by [getMonth()]. *)
Definition monthLong (m : Z) : string :=
  nth (Z.to_nat m)
    ["janeiro"; "fevereiro"; "março"; "abril"; "maio"; "junho"; "julho";
     "agosto"; "setembro"; "outubro"; "novembro"; "dezembro"] "".

(** [toLocaleString('pt-BR', { month: 'long' })]. *)
Definition toLocaleMonth (tz : Z) (d : t) : string :=
  match getMonth tz d with
  | Some m => monthLong m
  | None => "Invalid Date"
  end.

End JsDate.

(** ** Strings *)

Module JsString.

(** [String(n)] for an integer. *)
Definition ofNumber (n : Z) : string := NilZero.string_of_int (Z.to_int n).

(** [String(x)] where [x] is a number or [NaN]. *)
Definition ofNaN (x : option Z) : string :=
  match x with Some n => ofNumber n | None => "NaN" end.

(** [String(x)] where [x] is a number or [null]. *)
Definition ofNull (x : option Z) : string :=
  match x with Some n => ofNumber n | None => "null" end.

(** [s.padStart(2, '0')]. *)
Definition padStart2 (s : string) : string :=
  match s with
  | "" => "00"
  | String c "" => String "0" (String c "")
  | _ => s
  end.

Definition upper (c : ascii) : ascii :=
  let n := nat_of_ascii c in
  if (Nat.leb 97 n && Nat.leb n 122)%bool then ascii_of_nat (n - 32) else c.

(** [s.charAt(0).toUpperCase() + s.slice(1)]; the first character of every
    string this is applied to is an ASCII letter. *)
Definition capitalize (s : string) : string :=
  match s with
  | "" => ""
  | String c r => String (upper c) r
  end.

(** [x || d] where [x] is a string or missing: the empty string is falsy. *)
Definition orElse (x : option string) (d : string) : string :=
  match x with
  | Some "" | None => d
  | Some v => v
  end.

(** [x ? f(x) : ''] for the same [x]. *)
Definition ifTruthy (x : option string) (f : string -> string) : string :=
  match x with
  | Some "" | None => ""
  | Some v => f v
  end.

End JsString.

(** ** Objects used as maps, arrays *)

Module JsObject.
Section Obj.
Context {V : Type}.

(** Properties in insertion order. *)
Definition t := list (string * V).

Fixpoint get (o : t) (k : string) : option V :=
  match o with
  | [] => None
  | (k', v) :: o' => if String.eqb k' k then Some v else get o' k
  end.

(** [o[k] = v]: an existing property keeps its place, a new one goes last. *)
Fixpoint set (o : t) (k : string) (v : V) : t :=
  match o with
  | [] => [(k, v)]
  | (k', v') :: o' =>
      if String.eqb k' k then (k', v) :: o' else (k', v') :: set o' k v
  end.

Definition keys (o : t) : list string := map fst o.
End Obj.
Arguments t : clear implicits.
End JsObject.

Module JsArray.
Section Arr.
Context {A : Type}.

(** [a.indexOf(x)], [-1] when absent. *)
Fixpoint indexOf (eqb : A -> A -> bool) (a : list A) (x : A) : Z :=
  match a with
  | [] => -1
  | y :: a' =>
      if eqb y x then 0
      else let i := indexOf eqb a' x in if i <? 0 then -1 else i + 1
  end.

(** [a.sort(cmp)]: the sort is stable; an element goes before the first
    one after it that is not smaller. *)
Fixpoint insert (cmp : A -> A -> Z) (x : A) (a : list A) : list A :=
  match a with
  | [] => [x]
  | y :: a' => if cmp x y <=? 0 then x :: a else y :: insert cmp x a'
  end.

Fixpoint sort (cmp : A -> A -> Z) (a : list A) : list A :=
  match a with
  | [] => []
  | x :: a' => insert cmp x (sort cmp a')
  end.

(** [new Set()] with [add]: the members in order of first insertion. *)
Definition setAdd (eqb : A -> A -> bool) (s : list A) (x : A) : list A :=
  if existsb (eqb x) s then s else s ++ [x].

(** [for (let i = from; i <= upto; i++) body(i)] over a state. *)
Definition forUpto {S : Type} (from upto : Z) (body : Z -> S -> S) (s : S) : S :=
  fold_left (fun s i => body (from + Z.of_nat i) s)
            (seq 0 (Z.to_nat (upto - from + 1))) s.
End Arr.
End JsArray.

(** ** The document *)

(** An element: the properties the script writes. *)
#[local] Set Warnings "-register-all".
Inductive Node : Type := mkNode {
  tagName : string;
  classList : list string;
  textContent : string;
  backgroundColor : string;
  attributes : JsObject.t string;
  children : list Node
}.

Module Dom.

Definition createElement (tag : string) : Node :=
  mkNode tag [] "" "" [] [].

(** [el.className = '...']: the tokens of the string. *)
Definition setClassName (el : Node) (tokens : list string) : Node :=
  mkNode (tagName el) tokens (textContent el) (backgroundColor el)
         (attributes el) (children el).

Definition setTextContent (el : Node) (s : string) : Node :=
  mkNode (tagName el) (classList el) s (backgroundColor el)
         (attributes el) (children el).

Definition setBackgroundColor (el : Node) (s : string) : Node :=
  mkNode (tagName el) (classList el) (textContent el) s
         (attributes el) (children el).

Definition setAttribute (el : Node) (k v : string) : Node :=
  mkNode (tagName el) (classList el) (textContent el) (backgroundColor el)
         (JsObject.set (attributes el) k v) (children el).

Definition appendChild (el child : Node) : Node :=
  mkNode (tagName el) (classList el) (textContent el) (backgroundColor el)
         (attributes el) (children el ++ [child]).

(** [el.classList.add(t1, t2, ...)]: a token already there is not added. *)
Definition classListAdd (el : Node) (tokens : list string) : Node :=
  setClassName el
    (fold_left (fun l t => if existsb (String.eqb t) l then l else l ++ [t])
               tokens (classList el)).

End Dom.

(** ** Data of the page *)

(** An event as the endpoint sends it. *)
Record Evento := {
  data : string;
  titulo : string;
  categoria : string;
  hora : option string;
  local : option string
}.

Record Config := {
  config_local : option string;
  config_contact : option string;
  config_logo : option string
}.

(** The body of a response of [/api/data]. *)
Record Data := {
  eventos : option (list Evento);
  config : option Config
}.

(** The globals of the script and the parts of the document it writes. *)
Record Page := {
  allEventos : list Evento;
  currentFilter : string;
  calendars_container : list Node;
  eventos_container : list Node;
  local_info : string;
  contact_info : string;
  logo : option string;
  console : list string
}.

Definition categoryColors : JsObject.t string :=
  [("Estadual", "#1e3a52");
   ("Ritualística", "#4a7c59");
   ("Entretenimento", "#d4a574");
   ("Pública", "#4a9b8e");
   ("Feriado", "#e74c3c");
   ("Sem Atividade", "#2c3e50")].

Definition categoryCssClasses : JsObject.t string :=
  [("Estadual", "estadual");
   ("Ritualística", "ritualistica");
   ("Entretenimento", "entretenimento");
   ("Pública", "publica");
   ("Feriado", "feriado");
   ("Sem Atividade", "sematividade")].

(** ** The list of events *)

Definition getFilteredEventos (p : Page) : list Evento :=
  if String.eqb (currentFilter p) "Todas" then allEventos p
  else filter (fun e => String.eqb (categoria e) (currentFilter p)) (allEventos p).

(** The key [groupEventosByMonth] files an event under. *)
Definition monthName (tz : Z) (evento : Evento) : string :=
  let date := JsDate.parse (data evento) in
  JsString.capitalize (JsDate.toLocaleMonth tz date).

(** The body of the [forEach] of [groupEventosByMonth]: [grouped] after
    [evento]. *)
Definition groupStep (tz : Z) (grouped : JsObject.t (list Evento))
  (evento : Evento) : JsObject.t (list Evento) :=
  let monthName := monthName tz evento in
  let grouped :=
    match JsObject.get grouped monthName with
    | None => JsObject.set grouped monthName []
    | Some _ => grouped
    end in
  match JsObject.get grouped monthName with
  | Some l => JsObject.set grouped monthName (l ++ [evento])
  | None => grouped
  end.

Definition groupEventosByMonth (tz : Z) (eventos : list Evento)
  : JsObject.t (list Evento) :=
  fold_left (groupStep tz) eventos [].

Definition meses : list string :=
  ["Janeiro"; "Fevereiro"; "Março"; "Abril"; "Maio"; "Junho"; "Julho";
   "Agosto"; "Setembro"; "Outubro"; "Novembro"; "Dezembro"].

Definition mesesIndex (k : string) : Z := JsArray.indexOf String.eqb meses k.

(** One row of the list: the body of the inner [forEach]. *)
Definition renderEventItem (tz : Z) (evento : Evento) : Node :=
  let eventDiv := Dom.createElement "div" in
  let eventDiv := Dom.setClassName eventDiv ["event-item"] in
  let date := JsDate.parse (data evento) in
  let day := JsDate.getDate tz date in
  let dateBox := Dom.createElement "div" in
  let dateBox := Dom.setClassName dateBox ["event-date-box"] in
  let dateBox := Dom.setTextContent dateBox (JsString.ofNaN day) in
  let dateBox :=
    Dom.setBackgroundColor dateBox
      (JsString.orElse (JsObject.get categoryColors (categoria evento)) "#999") in
  let detailsDiv := Dom.createElement "div" in
  let detailsDiv := Dom.setClassName detailsDiv ["event-details"] in
  let titleDiv := Dom.createElement "div" in
  let titleDiv := Dom.setClassName titleDiv ["event-title"] in
  let titleDiv := Dom.setTextContent titleDiv (titulo evento) in
  let categoryDiv := Dom.createElement "div" in
  let categoryDiv := Dom.setClassName categoryDiv ["event-category"] in
  let categoryDiv := Dom.setTextContent categoryDiv (categoria evento) in
  let timeDiv := Dom.createElement "div" in
  let timeDiv := Dom.setClassName timeDiv ["event-time"] in
  let timeDiv :=
    Dom.setTextContent timeDiv (JsString.orElse (hora evento) "Horário não definido") in
  let locationDiv := Dom.createElement "div" in
  let locationDiv := Dom.setClassName locationDiv ["event-location"] in
  let locationDiv :=
    Dom.setTextContent locationDiv (JsString.orElse (local evento) "Local não definido") in
  let detailsDiv := Dom.appendChild detailsDiv titleDiv in
  let detailsDiv := Dom.appendChild detailsDiv categoryDiv in
  let detailsDiv := Dom.appendChild detailsDiv timeDiv in
  let detailsDiv := Dom.appendChild detailsDiv locationDiv in
  let eventDiv := Dom.appendChild eventDiv dateBox in
  let eventDiv := Dom.appendChild eventDiv detailsDiv in
  eventDiv.

(** One month of the list: the body of the outer [forEach]. *)
Definition renderMonthGroup (tz : Z) (month : string) (eventosDoMes : list Evento)
  : Node :=
  let monthDiv := Dom.createElement "div" in
  let monthDiv := Dom.setClassName monthDiv ["month-group"] in
  let monthTitle := Dom.createElement "h3" in
  let monthTitle := Dom.setClassName monthTitle ["month-title"] in
  let monthTitle := Dom.setTextContent monthTitle month in
  let monthDiv := Dom.appendChild monthDiv monthTitle in
  fold_left
    (fun monthDiv evento => Dom.appendChild monthDiv (renderEventItem tz evento))
    eventosDoMes monthDiv.

Definition setEventosContainer (p : Page) (c : list Node) : Page :=
  {| allEventos := allEventos p; currentFilter := currentFilter p;
     calendars_container := calendars_container p; eventos_container := c;
     local_info := local_info p; contact_info := contact_info p;
     logo := logo p; console := console p |}.

(** The month keys of a grouping in the order the list shows them. *)
Definition monthKeys (grouped : JsObject.t (list Evento)) : list string :=
  JsArray.sort (fun a b => mesesIndex a - mesesIndex b) (JsObject.keys grouped).

Definition renderEventsList (tz : Z) (p : Page) : Page :=
  let p := setEventosContainer p [] in
  let filtered := getFilteredEventos p in
  let grouped := groupEventosByMonth tz filtered in
  fold_left
    (fun p month =>
       match JsObject.get grouped month with
       | Some eventosDoMes =>
           setEventosContainer p
             (eventos_container p ++ [renderMonthGroup tz month eventosDoMes])
       | None => p
       end)
    (monthKeys grouped) p.

(** ** The month grids *)

(** A member of the set of months: the record [{ year, month }] as it comes
    back from [JSON.parse(JSON.stringify(...))], which is one-to-one on these
    records and writes [NaN] as [null] ([None]). *)
Record YearMonth := { year : option Z; month : option Z }.

Definition optZ_eqb (a b : option Z) : bool :=
  match a, b with
  | Some x, Some y => x =? y
  | None, None => true
  | _, _ => false
  end.

Definition YearMonth_eqb (a b : YearMonth) : bool :=
  optZ_eqb (year a) (year b) && optZ_eqb (month a) (month b).

(** [ToNumber] of a number or [null]. *)
Definition toNumber (x : option Z) : Z :=
  match x with Some n => n | None => 0 end.

Definition compareMonths (a b : YearMonth) : Z :=
  if negb (optZ_eqb (year a) (year b))
  then toNumber (year a) - toNumber (year b)
  else toNumber (month a) - toNumber (month b).

Definition getMonthsWithEvents (tz : Z) (p : Page) : list YearMonth :=
  let months :=
    fold_left
      (fun months evento =>
         let date := JsDate.parse (data evento) in
         let year := JsDate.getFullYear tz date in
         let month := option_map (fun m => m + 1) (JsDate.getMonth tz date) in
         JsArray.setAdd YearMonth_eqb months {| year := year; month := month |})
      (allEventos p) [] in
  JsArray.sort compareMonths months.

Definition dayHeaders : list string :=
  ["Dom"; "Seg"; "Ter"; "Qua"; "Qui"; "Sex"; "Sáb"].

Definition newline : string := String (ascii_of_nat 10) "".

(** [year + '-' + String(month).padStart(2, '0') + '-' + String(day).padStart(2, '0')] *)
Definition dateStr (ym : YearMonth) (day : Z) : string :=
  (JsString.ofNull (year ym) ++ "-"
   ++ JsString.padStart2 (JsString.ofNull (month ym)) ++ "-"
   ++ JsString.padStart2 (JsString.ofNumber day))%string.

(** The body of [if (eventosDoDay.length > 0)]. *)
Definition markEvento (dayDiv : Node) (evento : Evento) : Node :=
  let categoria := categoria evento in
  let cssClass :=
    JsString.orElse (JsObject.get categoryCssClasses categoria) "sematividade" in
  let dayDiv := Dom.classListAdd dayDiv ["has-event"; cssClass] in
  let dayDiv :=
    Dom.setBackgroundColor dayDiv
      (JsString.orElse (JsObject.get categoryColors categoria) "#999") in
  let horaText := JsString.ifTruthy (hora evento) (fun h => ("⏰ " ++ h)%string) in
  let localText := JsString.ifTruthy (local evento) (fun l => ("📍 " ++ l)%string) in
  let tooltipText :=
    (titulo evento ++ newline ++ horaText ++ newline ++ localText)%string in
  let dayDiv := Dom.setAttribute dayDiv "data-tooltip" tooltipText in
  let dayDiv :=
    Dom.setAttribute dayDiv "title"
      (titulo evento ++ " - " ++ JsString.orElse (hora evento) "S/ hora" ++ " - "
       ++ JsString.orElse (local evento) "S/ local")%string in
  dayDiv.

(** The body of the loop over the days of the month. *)
Definition renderDayCell (allEventos : list Evento) (ym : YearMonth) (day : Z)
  : Node :=
  let dayDiv := Dom.createElement "div" in
  let dayDiv := Dom.setClassName dayDiv ["day-cell"] in
  let dayDiv := Dom.setTextContent dayDiv (JsString.ofNumber day) in
  let dateStr := dateStr ym day in
  let eventosDoDay := filter (fun e => String.eqb (data e) dateStr) allEventos in
  match eventosDoDay with
  | evento :: _ => markEvento dayDiv evento
  | [] => dayDiv
  end.

Definition emptyCell : Node :=
  Dom.setClassName (Dom.createElement "div") ["day-cell"; "empty"].

Definition headerCell (day : string) : Node :=
  let headerDiv := Dom.createElement "div" in
  let headerDiv := Dom.setClassName headerDiv ["day-header"] in
  Dom.setTextContent headerDiv day.

(** [toLocaleString('pt-BR', { month: 'long', year: 'numeric' })]. *)
Definition toLocaleMonthYear (tz : Z) (d : JsDate.t) : string :=
  match JsDate.localDate tz d with
  | Some (y, m, _) => (JsDate.monthLong (m - 1) ++ " de " ++ JsString.ofNumber y)%string
  | None => "Invalid Date"
  end.

(** [new Date(year, month - 1, 1).getDay()] *)
Definition firstDay (tz : Z) (ym : YearMonth) : option Z :=
  JsDate.getDay tz
    (JsDate.ofFields tz (toNumber (year ym)) (toNumber (month ym) - 1) 1).

(** [new Date(year, month, 0).getDate()] *)
Definition daysInMonth (tz : Z) (ym : YearMonth) : option Z :=
  JsDate.getDate tz
    (JsDate.ofFields tz (toNumber (year ym)) (toNumber (month ym)) 0).

(** A loop that counts up to a number that may be [NaN]: every comparison
    with [NaN] is false, so the body never runs. *)
Definition forUptoNaN {S : Type} (from : Z) (upto : option Z)
  (body : Z -> S -> S) (s : S) : S :=
  match upto with
  | Some n => JsArray.forUpto from n body s
  | None => s
  end.

(** The grid of one month. *)
Definition renderGrid (tz : Z) (allEventos : list Evento) (ym : YearMonth) : Node :=
  let gridDiv := Dom.createElement "div" in
  let gridDiv := Dom.setClassName gridDiv ["calendar-grid"] in
  let gridDiv :=
    fold_left (fun gridDiv day => Dom.appendChild gridDiv (headerCell day))
              dayHeaders gridDiv in
  let firstDay := firstDay tz ym in
  let daysInMonth := daysInMonth tz ym in
  let gridDiv :=
    forUptoNaN 0 (option_map (fun n => n - 1) firstDay)
      (fun _ gridDiv => Dom.appendChild gridDiv emptyCell) gridDiv in
  let gridDiv :=
    forUptoNaN 1 daysInMonth
      (fun day gridDiv => Dom.appendChild gridDiv (renderDayCell allEventos ym day))
      gridDiv in
  gridDiv.

(** One calendar: the body of the [forEach] of [renderCalendars]. *)
Definition renderCalendar (tz : Z) (allEventos : list Evento) (ym : YearMonth)
  : Node :=
  let calendarDiv := Dom.createElement "div" in
  let calendarDiv := Dom.setClassName calendarDiv ["calendar"] in
  let monthName :=
    toLocaleMonthYear tz
      (JsDate.ofFields tz (toNumber (year ym)) (toNumber (month ym) - 1) 1) in
  let titleDiv := Dom.createElement "div" in
  let titleDiv := Dom.setClassName titleDiv ["calendar-title"] in
  let titleDiv := Dom.setTextContent titleDiv (JsString.capitalize monthName) in
  let calendarDiv := Dom.appendChild calendarDiv titleDiv in
  let gridDiv := renderGrid tz allEventos ym in
  let calendarDiv := Dom.appendChild calendarDiv gridDiv in
  calendarDiv.

Definition setCalendarsContainer (p : Page) (c : list Node) : Page :=
  {| allEventos := allEventos p; currentFilter := currentFilter p;
     calendars_container := c; eventos_container := eventos_container p;
     local_info := local_info p; contact_info := contact_info p;
     logo := logo p; console := console p |}.

Definition renderCalendars (tz : Z) (p : Page) : Page :=
  let p := setCalendarsContainer p [] in
  let months := getMonthsWithEvents tz p in
  fold_left
    (fun p ym =>
       setCalendarsContainer p
         (calendars_container p ++ [renderCalendar tz (allEventos p) ym]))
    months p.

(** ** Loading *)

(** What the request of [loadData] comes to. *)
Inductive FetchOutcome :=
| NetworkError (reason : string)
    (** [fetch] rejects *)
| Response (body : option Data).
    (** [fetch] resolves; the body is JSON or it is not, and then
        [response.json()] rejects *)

Definition setAllEventos (p : Page) (l : list Evento) : Page :=
  {| allEventos := l; currentFilter := currentFilter p;
     calendars_container := calendars_container p;
     eventos_container := eventos_container p;
     local_info := local_info p; contact_info := contact_info p;
     logo := logo p; console := console p |}.

Definition setInfo (p : Page) (loc contact : string) (lg : option string) : Page :=
  {| allEventos := allEventos p; currentFilter := currentFilter p;
     calendars_container := calendars_container p;
     eventos_container := eventos_container p;
     local_info := loc; contact_info := contact;
     logo := lg; console := console p |}.

Definition consoleError (p : Page) (msg : string) : Page :=
  {| allEventos := allEventos p; currentFilter := currentFilter p;
     calendars_container := calendars_container p;
     eventos_container := eventos_container p;
     local_info := local_info p; contact_info := contact_info p;
     logo := logo p; console := console p ++ [msg] |}.

(** A statement block run on the page: the page it leaves and the exception
    it throws, if any. *)
Definition Completion : Type := Page * option string.

(** The [try] block of [loadData]. *)
Definition loadData_try (tz : Z) (outcome : FetchOutcome) (p : Page) : Completion :=
  match outcome with
  | NetworkError reason => (p, Some reason)
  | Response None => (p, Some "SyntaxError")
  | Response (Some data) =>
      let p :=
        setAllEventos p (match eventos data with Some l => l | None => [] end) in
      let p :=
        match config data with
        | Some c =>
            setInfo p
              (JsString.orElse (config_local c) "Rua José Pereira Liberato, 1178")
              (JsString.orElse (config_contact c) "(47) 99286-0936 (Arthur Ayad)")
              (match config_logo c, logo p with
               | Some src, Some _ => if String.eqb src "" then logo p else Some src
               | _, _ => logo p
               end)
        | None => p
        end in
      let p := renderCalendars tz p in
      let p := renderEventsList tz p in
      (p, None)
  end.

Definition loadData (tz : Z) (outcome : FetchOutcome) (p : Page) : Completion :=
  match loadData_try tz outcome p with
  | (p, Some error) =>
      (consoleError p ("Erro ao carregar dados: " ++ error)%string, None)
  | (p, None) => (p, None)
  end.

(** The click handler [setupFilterButtons] gives the button of [filter]; the
    [active] class it moves between the buttons is not part of the page. *)
Definition clickFilter (tz : Z) (filter : string) (p : Page) : Page :=
  let p :=
    {| allEventos := allEventos p; currentFilter := filter;
       calendars_container := calendars_container p;
       eventos_container := eventos_container p;
       local_info := local_info p; contact_info := contact_info p;
       logo := logo p; console := console p |} in
  renderEventsList tz p.

(** ** The filter buttons and the event loop *)

(** A filter button: its [data-filter] attribute and its class list. *)
Record FilterBtn := {
  dataset_filter : string;
  btn_classList : list string
}.

(** The page with the buttons [querySelectorAll('.filter-btn')] finds. *)
Record Document := {
  filterBtns : list FilterBtn;
  page : Page
}.

(** [b.classList.remove('active')] *)
Definition removeActive (b : FilterBtn) : FilterBtn :=
  {| dataset_filter := dataset_filter b;
     btn_classList :=
       filter (fun c => negb (String.eqb c "active")) (btn_classList b) |}.

(** [btn.classList.add('active')] *)
Definition addActive (b : FilterBtn) : FilterBtn :=
  {| dataset_filter := dataset_filter b;
     btn_classList :=
       if existsb (String.eqb "active") (btn_classList b) then btn_classList b
       else btn_classList b ++ ["active"] |}.

(** [btns] with [f] applied to the button at index [i]. *)
Fixpoint atIndex (i : nat) (f : FilterBtn -> FilterBtn) (btns : list FilterBtn)
  {struct btns} : list FilterBtn :=
  match btns, i with
  | [], _ => []
  | b :: btns', O => f b :: btns'
  | b :: btns', S i' => b :: atIndex i' f btns'
  end.

(** The click handler of the button at index [i]: every button loses
    [active], the clicked one takes it, its filter becomes the current one
    and the list is drawn again.  An index past the buttons is no button. *)
Definition filterBtn_click (tz : Z) (i : nat) (d : Document) : Document :=
  match nth_error (filterBtns d) i with
  | Some btn =>
      let filterBtns := map removeActive (filterBtns d) in
      let filterBtns := atIndex i addActive filterBtns in
      {| filterBtns := filterBtns;
         page := clickFilter tz (dataset_filter btn) (page d) |}
  | None => d
  end.

(** What happens to the page: a request of [loadData] (the one of
    [DOMContentLoaded] or one of [setInterval(loadData, 5000)]) comes to its
    end, or a filter button is clicked.  The script writes nothing before a
    request has come to its end, so the calls of [loadData] take effect in
    the order their requests end. *)
Inductive PageEvent :=
| Loaded (outcome : FetchOutcome)
| Clicked (i : nat).

Definition handle (tz : Z) (d : Document) (ev : PageEvent) : Document :=
  match ev with
  | Loaded outcome =>
      {| filterBtns := filterBtns d;
         page := fst (loadData tz outcome (page d)) |}
  | Clicked i => filterBtn_click tz i d
  end.

(** The document after the events [evs], in their order. *)
Definition run (tz : Z) (evs : list PageEvent) (d : Document) : Document :=
  fold_left (handle tz) evs d.

(** * Vocabulary of the properties *)

(** Length of month [mp] of the year that starts in March ([0] is March, [11]
    February), [q] being that year's place in its 400-year cycle. *)
Definition marchMonthLength (q mp : Z) : Z :=
  if mp =? 11 then
    (if (q =? 399) || ((q mod 4 =? 3) && negb (q mod 100 =? 99)) then 29 else 28)
  else if (mp =? 1) || (mp =? 3) || (mp =? 6) || (mp =? 8) then 30 else 31.

(** The local time zones in use run from UTC-12:00 to UTC+14:00. *)
Definition realZone (tz : Z) : Prop := -720 <= tz <= 840.

Definition monthNames : list string := "Invalid Date" :: meses.

Definition inMonth (tz : Z) (k : string) (e : Evento) : bool :=
  String.eqb (monthName tz e) k.

Definition orNil (x : option (list Evento)) : list Evento :=
  match x with Some l => l | None => [] end.

(** [Selects P l l']: [l'] is [l] with exactly the elements that satisfy [P]
    kept, each as often as it occurs and in the order of [l]. *)
Inductive Selects {A : Type} (P : A -> Prop) : list A -> list A -> Prop :=
| Selects_nil : Selects P [] []
| Selects_keep x l l' : P x -> Selects P l l' -> Selects P (x :: l) (x :: l')
| Selects_drop x l l' : ~ P x -> Selects P l l' -> Selects P (x :: l) l'.

(** The heading of a month group. *)
Definition monthTitleNode (month : string) : Node :=
  mkNode "h3" ["month-title"] month "" [] [].

(** The month groups the list shows, in order: month name and events. *)
Definition listGroups (tz : Z) (p : Page) : list (string * list Evento) :=
  let filtered := getFilteredEventos p in
  map (fun k => (k, filter (inMonth tz k) filtered))
      (monthKeys (groupEventosByMonth tz filtered)).

(** How often a loop [for (i = 0; i < n; i++)] runs. *)
Definition blankCount (firstDay : option Z) : nat :=
  match firstDay with Some n => Z.to_nat n | None => 0%nat end.

(** The values of [day] in [for (day = 1; day <= n; day++)]. *)
Definition dayNumbers (daysInMonth : option Z) : list Z :=
  match daysInMonth with
  | Some n => map (fun i => 1 + Z.of_nat i) (seq 0 (Z.to_nat n))
  | None => []
  end.

(** The member [getMonthsWithEvents] adds for an event. *)
Definition monthOf (tz : Z) (evento : Evento) : YearMonth :=
  let date := JsDate.parse (data evento) in
  {| year := JsDate.getFullYear tz date;
     month := option_map (fun m => m + 1) (JsDate.getMonth tz date) |}.

(** Year, then month. *)
Definition monthBefore (a b : YearMonth) : Prop :=
  toNumber (year a) < toNumber (year b)
  \/ (toNumber (year a) = toNumber (year b)
      /\ toNumber (month a) <= toNumber (month b)).

Definition isNumbered (ym : YearMonth) : Prop :=
  year ym <> None /\ month ym <> None.

(** A member whose grid [renderCalendars] can date: [null] counts as 0. *)
Definition datable (ym : YearMonth) : Prop :=
  -14000 <= toNumber (year ym) <= 14000 /\ 0 <= toNumber (month ym) <= 12.

(** The year [new Date(year, ...)] takes for [year]. *)
Definition centuryYear (y : Z) : Z :=
  if (0 <=? y) && (y <=? 99) then 1900 + y else y.

Definition hasClass (c : string) (n : Node) : bool :=
  existsb (String.eqb c) (classList n).

Definition isBlank (n : Node) : bool := hasClass "empty" n.
Definition isDay (n : Node) : bool :=
  hasClass "day-cell" n && negb (hasClass "empty" n).

(** The cells of the grid of a calendar. *)
Definition gridOf (cal : Node) : list Node :=
  match children cal with
  | [_; grid] => children grid
  | _ => []
  end.

(** A day cell before an event marks it. *)
Definition plainDayCell (day : Z) : Node :=
  mkNode "div" ["day-cell"] (JsString.ofNumber day) "" [] [].

Definition cssClasses : list string :=
  "sematividade" :: map snd categoryCssClasses.

(** The rows of a month group of the list. *)
Definition rowsOf (group : Node) : list Node := tl (children group).

(** The heading of a month group of the list. *)
Definition headingOf (group : Node) : string :=
  match children group with
  | title :: _ => textContent title
  | [] => ""
  end.


(** The date box of a row of the list. *)
Definition dateBoxOf (row : Node) : option Node := hd_error (children row).


(** The request fails or its body is not JSON. *)
Definition fetchFails (outcome : FetchOutcome) : Prop :=
  match outcome with
  | NetworkError _ | Response None => True
  | Response (Some _) => False
  end.

(** The date string is a date of the calendar. *)
Definition calendarDate (e : Evento) : Prop :=
  exists y m d, JsDate.isoFields (data e) = Some (y, m, d) /\ d <= JsDate.daysIn y m.

(** The character of a decimal digit. *)
Definition digitChar (x : Z) : ascii := ascii_of_nat (Z.to_nat (48 + x)).

Definition decimalDigits : list Z := [0; 1; 2; 3; 4; 5; 6; 7; 8; 9].

(** The button carries the class [active]. *)
Definition isActive (b : FilterBtn) : bool :=
  existsb (String.eqb "active") (btn_classList b).


(** The events of a body: [data.eventos || []]. *)
Definition eventosOf (body : Data) : list Evento :=
  match eventos body with Some l => l | None => [] end.

(** The events of the last body among [evs], [start] when there is none. *)
Definition lastLoaded (evs : list PageEvent) (start : list Evento) : list Evento :=
  fold_left
    (fun l ev =>
       match ev with
       | Loaded (Response (Some body)) => eventosOf body
       | _ => l
       end) evs start.

(** The filter of the last button clicked among [evs], [start] when there
    is none. *)
Definition lastClicked (btns : list FilterBtn) (evs : list PageEvent)
  (start : string) : string :=
  fold_left
    (fun f ev =>
       match ev with
       | Clicked i =>
           match nth_error btns i with
           | Some btn => dataset_filter btn
           | None => f
           end
       | _ => f
       end) evs start.

(** Year, then month, and no two alike. *)
Definition monthStrictlyBefore (a b : YearMonth) : Prop :=
  toNumber (year a) < toNumber (year b)
  \/ (toNumber (year a) = toNumber (year b)
      /\ toNumber (month a) < toNumber (month b)).

(** The month before month [m] of year [y]. *)
Definition monthBeforeOf (y m : Z) : YearMonth :=
  if m =? 1 then {| year := Some (y - 1); month := Some 12 |}
  else {| year := Some y; month := Some (m - 1) |}.


(** ** Sample data *)

Module Sample.

Definition festa : Evento :=
  {| data := "2026-03-15"; titulo := "Festa"; categoria := "Feriado";
     hora := None; local := None |}.

Definition sessao : Evento :=
  {| data := "2026-03-15"; titulo := "Sessão magna"; categoria := "Ritualística";
     hora := Some "20:00"; local := Some "Templo" |}.

Definition posse : Evento :=
  {| data := "2026-03-01"; titulo := "Posse"; categoria := "Estadual";
     hora := Some "19:30"; local := None |}.

Definition visita : Evento :=
  {| data := "2026-04-10"; titulo := "Visita"; categoria := "Desconhecida";
     hora := None; local := Some "Sede" |}.

Definition jantar : Evento :=
  {| data := "2027-03-10"; titulo := "Jantar"; categoria := "Entretenimento";
     hora := None; local := None |}.

Definition reuniao : Evento :=
  {| data := "2027-01-20"; titulo := "Reunião"; categoria := "Pública";
     hora := None; local := None |}.

(** A page that holds [evs], nothing drawn yet. *)
Definition page (evs : list Evento) : Page :=
  {| allEventos := evs; currentFilter := "Todas";
     calendars_container := []; eventos_container := [];
     local_info := ""; contact_info := ""; logo := Some "logo.png";
     console := [] |}.

(** Brasilia time, UTC-03:00. *)
Definition brasilia : Z := -180.

End Sample.

(** * Properties *)

(** ** Calendar arithmetic *)

Ltac dlia := Z.to_euclidean_division_equations; lia.

(** Decides the tests of the goal that have no variable. *)
Ltac const_tests :=
  repeat match goal with
  | |- context [if ?b then _ else _] =>
      let v := eval vm_compute in b in
      match v with
      | true => change b with true
      | false => change b with false
      end; cbv iota
  end.

Lemma doy_range (doe : Z) :
  0 <= doe < 146097 ->
  let yoe := (doe - doe / 1460 + doe / 36524 - doe / 146096) / 365 in
  let doy := doe - (365 * yoe + yoe / 4 - yoe / 100) in
  0 <= yoe < 400 /\ 0 <= doy < 366.
Proof.
  intros H yoe doy. subst doy yoe.
  split; [dlia|].
  assert (Hc : doe / 36524 = 0 \/ doe / 36524 = 1 \/ doe / 36524 = 2
               \/ doe / 36524 = 3 \/ doe / 36524 = 4) by dlia.
  assert (Hd : doe / 146096 = 0 \/ doe / 146096 = 1) by dlia.
  destruct Hd as [Hd|Hd].
  - rewrite Hd. destruct Hc as [Hc|[Hc|[Hc|[Hc|Hc]]]]; rewrite Hc; dlia.
  - assert (doe = 146096) by dlia. subst doe. vm_compute. split; congruence.
Qed.

(** Day 0 is 1970-01-01, a Thursday. *)
Lemma epoch_day :
  JsDate.days_from_civil 1970 1 1 = 0
  /\ JsDate.civil_from_days 0 = (1970, 1, 1)
  /\ JsDate.WeekDay 0 = 4.
Proof. repeat split. Qed.

(** Every day number lies in a month from 1 to 12. *)
Lemma civil_from_days_month (z : Z) :
  1 <= snd (fst (JsDate.civil_from_days z)) <= 12.
Proof.
  unfold JsDate.civil_from_days. cbv zeta. cbn [fst snd].
  set (doe := z + 719468 - (z + 719468) / 146097 * 146097).
  assert (Hdoe : 0 <= doe < 146097) by (subst doe; dlia).
  destruct (doy_range doe Hdoe) as [_ Hdoy]. cbv zeta in Hdoy.
  set (doy := doe - _) in *.
  destruct ((5 * doy + 2) / 153 <? 10) eqn:E.
  - apply Z.ltb_lt in E. dlia.
  - apply Z.ltb_ge in E. dlia.
Qed.

Lemma civil_from_days_era (era q mp d : Z) :
  0 <= q < 400 -> 0 <= mp <= 11 -> 1 <= d <= marchMonthLength q mp ->
  JsDate.civil_from_days
    (era * 146097 + (q * 365 + q / 4 - q / 100 + ((153 * mp + 2) / 5 + d - 1)) - 719468)
  = ((if mp <? 10 then q + era * 400 else q + era * 400 + 1),
     (if mp <? 10 then mp + 3 else mp - 9), d).
Proof.
  intros Hq Hmp Hd.
  unfold JsDate.civil_from_days. cbv zeta.
  set (doy := (153 * mp + 2) / 5 + d - 1).
  set (doe := q * 365 + q / 4 - q / 100 + doy).
  replace (era * 146097 + doe - 719468 + 719468) with (era * 146097 + doe) by lia.
  assert (Hdoy : 0 <= doy
                 /\ doy < (if (q =? 399) || ((q mod 4 =? 3) && negb (q mod 100 =? 99))
                           then 366 else 365)
                 /\ (5 * doy + 2) / 153 = mp).
  { subst doy. unfold marchMonthLength in Hd.
    assert (Hc : mp = 0 \/ mp = 1 \/ mp = 2 \/ mp = 3 \/ mp = 4 \/ mp = 5 \/ mp = 6
                 \/ mp = 7 \/ mp = 8 \/ mp = 9 \/ mp = 10 \/ mp = 11) by lia.
    destruct ((q =? 399) || ((q mod 4 =? 3) && negb (q mod 100 =? 99)));
    repeat match type of Hd with context [if ?b then _ else _] => destruct b eqn:? end;
    repeat (destruct Hc as [Hc | Hc]; [subst mp; dlia | ]);
    subst mp; dlia. }
  destruct Hdoy as (Hd0 & Hd1 & Hmp').
  assert (Hdoe : 0 <= doe < 146097).
  { subst doe. destruct (q =? 399) eqn:E1; destruct (q mod 4 =? 3) eqn:E2;
      destruct (q mod 100 =? 99) eqn:E3; simpl in Hd1; dlia. }
  replace ((era * 146097 + doe) / 146097) with era by dlia.
  replace (era * 146097 + doe - era * 146097) with doe by lia.
  assert (Hyoe : (doe - doe / 1460 + doe / 36524 - doe / 146096) / 365 = q).
  { subst doe. destruct (q =? 399) eqn:E1; destruct (q mod 4 =? 3) eqn:E2;
      destruct (q mod 100 =? 99) eqn:E3; simpl in Hd1; dlia. }
  rewrite Hyoe.
  replace (doe - (365 * q + q / 4 - q / 100)) with doy by (subst doe; lia).
  rewrite Hmp'.
  replace (doy - (153 * mp + 2) / 5 + 1) with d by (subst doy; lia).
  destruct (mp <? 10) eqn:E.
  - replace (mp + 3 <=? 2) with false by lia. reflexivity.
  - replace (mp - 9 <=? 2) with true by lia. reflexivity.
Qed.

(** The date of the day number of a date of the calendar is that date. *)
Lemma civil_roundtrip (y m d : Z) :
  1 <= m <= 12 -> 1 <= d <= JsDate.daysIn y m ->
  JsDate.civil_from_days (JsDate.days_from_civil y m d) = (y, m, d).
Proof.
  intros Hm Hd.
  unfold JsDate.days_from_civil. cbv zeta.
  set (y' := if m <=? 2 then y - 1 else y).
  set (mp := if 2 <? m then m - 3 else m + 9).
  set (era := y' / 400). set (q := y' - era * 400).
  assert (Hq : 0 <= q < 400) by (subst q era; dlia).
  assert (Hmp : 0 <= mp <= 11) by (subst mp; destruct (2 <? m) eqn:E; lia).
  assert (Hlen : JsDate.daysIn y m = marchMonthLength q mp).
  { unfold JsDate.daysIn, marchMonthLength, JsDate.isLeap. subst mp q era y'.
    destruct (m <=? 2) eqn:E1; destruct (2 <? m) eqn:E2; try lia;
    repeat match goal with |- context [Z.eqb ?a ?b] => destruct (Z.eqb a b) eqn:? end;
    cbn [orb andb negb]; try reflexivity; dlia. }
  rewrite Hlen in Hd.
  rewrite (civil_from_days_era era q mp d Hq Hmp Hd).
  subst mp q era y'.
  destruct (m <=? 2) eqn:E1; destruct (2 <? m) eqn:E2; try lia.
  - replace (m + 9 <? 10) with false by lia. repeat f_equal; dlia.
  - replace (m - 3 <? 10) with true by lia. repeat f_equal; dlia.
Qed.

(** The first day of a month comes right after the last day of the month
    before it. *)
Lemma days_from_civil_next_month (y m : Z) :
  1 <= m <= 12 ->
  JsDate.days_from_civil (y + m / 12) (m mod 12 + 1) 1
  = JsDate.days_from_civil y m (JsDate.daysIn y m) + 1.
Proof.
  intros Hm.
  assert (Hc : m = 1 \/ m = 2 \/ m = 3 \/ m = 4 \/ m = 5 \/ m = 6 \/ m = 7
               \/ m = 8 \/ m = 9 \/ m = 10 \/ m = 11 \/ m = 12) by lia.
  unfold JsDate.days_from_civil, JsDate.daysIn, JsDate.isLeap. cbv zeta.
  repeat (destruct Hc as [Hc | Hc];
          [subst m; const_tests;
           repeat match goal with
             | |- context [if ?b then _ else _] => destruct b eqn:?
             end; dlia|]).
  subst m; const_tests; dlia.
Qed.

Lemma Day_of_days (D : Z) : JsDate.Day (D * JsDate.msPerDay) = D.
Proof. unfold JsDate.Day, JsDate.msPerDay. dlia. Qed.

Lemma LocalTime_UTC (tz v : Z) : JsDate.LocalTime tz (JsDate.UTC tz v) = v.
Proof. unfold JsDate.LocalTime, JsDate.UTC. lia. Qed.

(** Local time is at most a day away from UTC. *)
Lemma Day_LocalTime (tz D : Z) :
  realZone tz ->
  JsDate.Day (JsDate.LocalTime tz (D * JsDate.msPerDay))
  = if tz <? 0 then D - 1 else D.
Proof.
  unfold realZone, JsDate.Day, JsDate.LocalTime, JsDate.msPerDay, JsDate.msPerMinute.
  intros H. destruct (tz <? 0) eqn:E; dlia.
Qed.

Lemma days_from_civil_bound (y m d : Z) :
  -20000 <= y <= 20000 -> 1 <= m <= 12 -> 0 <= d <= 31 ->
  -9000000 <= JsDate.days_from_civil y m d <= 9000000.
Proof.
  intros Hy Hm Hd. unfold JsDate.days_from_civil. cbv zeta.
  destruct (m <=? 2) eqn:E1; destruct (2 <? m) eqn:E2; dlia.
Qed.

Lemma civil_from_days_year (z : Z) :
  -4000000 <= z <= 4000000 ->
  -14000 <= fst (fst (JsDate.civil_from_days z)) <= 14000.
Proof.
  intros Hz. unfold JsDate.civil_from_days. cbv zeta. cbn [fst snd].
  set (doe := z + 719468 - (z + 719468) / 146097 * 146097).
  assert (Hdoe : 0 <= doe < 146097) by (subst doe; dlia).
  destruct (doy_range doe Hdoe) as [Hyoe _]. cbv zeta in Hyoe.
  set (yoe := (doe - doe / 1460 + doe / 36524 - doe / 146096) / 365) in *.
  destruct (_ <=? 2); dlia.
Qed.

Lemma civil_from_days_day (z : Z) : 1 <= snd (JsDate.civil_from_days z) <= 31.
Proof.
  unfold JsDate.civil_from_days. cbv zeta. cbn [fst snd].
  set (doe := z + 719468 - (z + 719468) / 146097 * 146097).
  assert (Hdoe : 0 <= doe < 146097) by (subst doe; dlia).
  destruct (doy_range doe Hdoe) as [_ Hdoy]. cbv zeta in Hdoy.
  set (doy := doe - _) in *. dlia.
Qed.

Lemma TimeClip_small (v : Z) :
  -800000000000000 <= v <= 800000000000000 -> JsDate.TimeClip v = Some v.
Proof.
  intros H. unfold JsDate.TimeClip, JsDate.maxTime.
  replace (Z.abs v <=? 8640000000000000) with true by lia. reflexivity.
Qed.

Lemma digit_range c x : JsDate.digit c = Some x -> 0 <= x <= 9.
Proof.
  unfold JsDate.digit. cbv zeta.
  destruct (_ && _) eqn:E; [|discriminate]. intros [= <-]. lia.
Qed.

Lemma num2_range a b x : JsDate.num2 a b = Some x -> 0 <= x <= 99.
Proof.
  unfold JsDate.num2.
  destruct (JsDate.digit a) eqn:Ea; destruct (JsDate.digit b) eqn:Eb; try discriminate.
  intros H. apply digit_range in Ea. apply digit_range in Eb.
  assert (x = 10 * z + z0) by congruence. lia.
Qed.

Lemma isoFields_range s y m d :
  JsDate.isoFields s = Some (y, m, d) ->
  0 <= y <= 9999 /\ 1 <= m <= 12 /\ 1 <= d <= 31.
Proof.
  unfold JsDate.isoFields.
  destruct (list_ascii_of_string s) as
    [|y1 [|y2 [|y3 [|y4 [|s1 [|m1 [|m2 [|s2 [|d1 [|d2 [|? ?]]]]]]]]]]];
    try discriminate.
  destruct (_ && _); [|discriminate].
  unfold JsDate.num4.
  destruct (JsDate.num2 y1 y2) eqn:E1; [|discriminate].
  destruct (JsDate.num2 y3 y4) eqn:E2; [|discriminate].
  destruct (JsDate.num2 m1 m2) eqn:E3; [|discriminate].
  destruct (JsDate.num2 d1 d2) eqn:E4; [|discriminate].
  destruct (_ && _) eqn:E; [|discriminate].
  intros H. apply num2_range in E1. apply num2_range in E2.
  assert (y = 100 * z + z0 /\ m = z1 /\ d = z2) as (-> & -> & ->)
    by (repeat split; congruence).
  lia.
Qed.

(** The day number a date-only string stands for. *)
Lemma parse_day s y m d :
  JsDate.isoFields s = Some (y, m, d) ->
  JsDate.parse s = Some (JsDate.days_from_civil y m d * JsDate.msPerDay)
  /\ -800000 <= JsDate.days_from_civil y m d <= 3000000.
Proof.
  intros Hs. pose proof (isoFields_range _ _ _ _ Hs) as (Hy & Hm & Hd).
  unfold JsDate.parse. rewrite Hs. unfold JsDate.MakeDay.
  replace ((m - 1) / 12) with 0 by dlia.
  replace ((m - 1) mod 12 + 1) with m by dlia.
  replace (y + 0) with y by lia.
  assert (Heq : JsDate.days_from_civil y m 1 + d - 1 = JsDate.days_from_civil y m d).
  { unfold JsDate.days_from_civil. cbv zeta. lia. }
  rewrite Heq.
  assert (Hb : -800000 <= JsDate.days_from_civil y m d <= 3000000).
  { unfold JsDate.days_from_civil. cbv zeta.
    destruct (m <=? 2) eqn:E1; destruct (2 <? m) eqn:E2; dlia. }
  split; auto. apply TimeClip_small. unfold JsDate.msPerDay. lia.
Qed.

Lemma monthLong_meses (m : Z) :
  0 <= m <= 11 -> In (JsString.capitalize (JsDate.monthLong m)) meses.
Proof.
  intros H.
  assert (Hc : m = 0 \/ m = 1 \/ m = 2 \/ m = 3 \/ m = 4 \/ m = 5 \/ m = 6
               \/ m = 7 \/ m = 8 \/ m = 9 \/ m = 10 \/ m = 11) by lia.
  repeat (destruct Hc as [-> | Hc]; [vm_compute; tauto|]).
  subst m. vm_compute. tauto.
Qed.

(** A month name is one of [meses], or ["Invalid Date"]. *)
Lemma monthName_range tz e : In (monthName tz e) monthNames.
Proof.
  unfold monthName, JsDate.toLocaleMonth, JsDate.getMonth, JsDate.localDate.
  destruct (JsDate.parse (data e)) as [v|]; cbn [option_map]; [|now left].
  right.
  pose proof (civil_from_days_month (JsDate.Day (JsDate.LocalTime tz v))) as Hm.
  destruct (JsDate.civil_from_days _) as [[y m] d]. cbn [fst snd] in Hm.
  apply monthLong_meses. lia.
Qed.

Lemma mesesIndex_inj a b :
  In a monthNames -> In b monthNames -> mesesIndex a = mesesIndex b -> a = b.
Proof.
  unfold monthNames, meses. simpl.
  intros Ha Hb.
  repeat (destruct Ha as [<- | Ha]; [|]); try contradiction;
  repeat (destruct Hb as [<- | Hb]; [|]); try contradiction;
  vm_compute; intros H; first [reflexivity | discriminate H].
Qed.

(** ** Objects and arrays *)

Section ObjectFacts.
Context {V : Type}.
Implicit Types (o : JsObject.t V) (k : string) (v : V).

Lemma get_set_same o k v : JsObject.get (JsObject.set o k v) k = Some v.
Proof.
  induction o as [|[k' v'] o IH]; simpl.
  - now rewrite String.eqb_refl.
  - destruct (String.eqb k' k) eqn:E; simpl; rewrite E; auto.
Qed.

Lemma get_set_other o k k' v :
  k <> k' -> JsObject.get (JsObject.set o k v) k' = JsObject.get o k'.
Proof.
  intros Hne. induction o as [|[k0 v0] o IH]; simpl.
  - destruct (String.eqb k k') eqn:E; auto.
    apply String.eqb_eq in E. contradiction.
  - destruct (String.eqb k0 k) eqn:E; simpl.
    + apply String.eqb_eq in E. subst k0.
      destruct (String.eqb k k') eqn:E'; auto.
      apply String.eqb_eq in E'. contradiction.
    + now rewrite IH.
Qed.

Lemma get_None_keys o k : JsObject.get o k = None <-> ~ In k (JsObject.keys o).
Proof.
  induction o as [|[k' v'] o IH]; simpl.
  - tauto.
  - destruct (String.eqb k' k) eqn:E.
    + apply String.eqb_eq in E. split; [discriminate | tauto].
    + apply String.eqb_neq in E. rewrite IH. tauto.
Qed.

Lemma keys_set o k v :
  JsObject.keys (JsObject.set o k v)
  = match JsObject.get o k with
    | Some _ => JsObject.keys o
    | None => JsObject.keys o ++ [k]
    end.
Proof.
  induction o as [|[k' v'] o IH]; simpl; auto.
  destruct (String.eqb k' k) eqn:E; simpl; auto.
  rewrite IH. now destruct (JsObject.get o k).
Qed.

Lemma get_Some_In o k v : JsObject.get o k = Some v -> In (k, v) o.
Proof.
  induction o as [|[k' v'] o IH]; simpl; [discriminate|].
  destruct (String.eqb k' k) eqn:E.
  - apply String.eqb_eq in E. intros [= ->]. subst. now left.
  - right. auto.
Qed.

Lemma In_get_Some o k v :
  NoDup (JsObject.keys o) -> In (k, v) o -> JsObject.get o k = Some v.
Proof.
  induction o as [|[k' v'] o IH]; simpl; [tauto|].
  intros Hnd [Heq | Hin].
  - inversion Heq; subst. now rewrite String.eqb_refl.
  - inversion Hnd as [|? ? Hni Hnd']; subst.
    destruct (String.eqb k' k) eqn:E.
    + apply String.eqb_eq in E. subst k'. exfalso. apply Hni.
      change k with (fst (k, v)). now apply in_map.
    + auto.
Qed.
End ObjectFacts.

Section SortFacts.
Context {A : Type} (cmp : A -> A -> Z).

Lemma insert_perm x a : Permutation (JsArray.insert cmp x a) (x :: a).
Proof.
  induction a as [|y a IH]; simpl; auto.
  destruct (cmp x y <=? 0); auto.
  rewrite IH. apply perm_swap.
Qed.

Lemma sort_perm a : Permutation (JsArray.sort cmp a) a.
Proof.
  induction a as [|x a IH]; simpl; auto.
  rewrite insert_perm. now constructor.
Qed.

Lemma sort_In a x : In x (JsArray.sort cmp a) <-> In x a.
Proof.
  split; apply Permutation_in; [|symmetry]; apply sort_perm.
Qed.

(** The order [R] the comparator stands for, on the elements [P] where it
    is a total preorder. *)
Context (P : A -> Prop) (R : A -> A -> Prop).
Hypothesis cmp_le : forall a b, P a -> P b -> cmp a b <= 0 -> R a b.
Hypothesis cmp_gt : forall a b, P a -> P b -> 0 < cmp a b -> R b a.
Hypothesis R_trans : forall a b c, P a -> P b -> P c -> R a b -> R b c -> R a c.

Lemma insert_sorted x a :
  P x -> Forall P a -> StronglySorted R a ->
  StronglySorted R (JsArray.insert cmp x a).
Proof.
  intros Px Pa Hs. induction Hs as [|y a Hs IH Hy]; simpl.
  - repeat constructor.
  - inversion Pa as [|? ? Py Pa']; subst.
    destruct (cmp x y <=? 0) eqn:E.
    + apply Z.leb_le in E. constructor; [now constructor|].
      constructor; [auto|].
      rewrite Forall_forall in *. intros z Hz.
      apply (R_trans x y z); auto.
    + apply Z.leb_gt in E. constructor; [auto|].
      rewrite Forall_forall in *. intros z Hz.
      apply (Permutation_in _ (insert_perm x a)) in Hz.
      destruct Hz as [<- | Hz]; auto.
Qed.

Lemma sort_sorted a : Forall P a -> StronglySorted R (JsArray.sort cmp a).
Proof.
  induction 1 as [|x a Px Pa IH]; simpl; [constructor|].
  apply insert_sorted; auto.
  rewrite Forall_forall in *. intros z Hz. apply Pa. now apply sort_In.
Qed.
End SortFacts.

(** ** Grouping by month *)

Section Grouping.
Variable tz : Z.

Lemma groupEventosByMonth_fold evs :
  groupEventosByMonth tz evs = fold_left (groupStep tz) evs [].
Proof. reflexivity. Qed.

Lemma groupStep_get g e k :
  JsObject.get (groupStep tz g e) k
  = if inMonth tz k e then Some (orNil (JsObject.get g k) ++ [e])
    else JsObject.get g k.
Proof.
  unfold groupStep, inMonth.
  destruct (String.eqb (monthName tz e) k) eqn:E.
  - apply String.eqb_eq in E. subst k.
    destruct (JsObject.get g (monthName tz e)) eqn:G.
    + rewrite G. now rewrite get_set_same.
    + rewrite get_set_same. now rewrite get_set_same.
  - apply String.eqb_neq in E.
    destruct (JsObject.get g (monthName tz e)) eqn:G.
    + rewrite G. now rewrite get_set_other.
    + rewrite get_set_same. rewrite !get_set_other; auto.
Qed.

Lemma groupStep_keys g e :
  JsObject.keys (groupStep tz g e)
  = match JsObject.get g (monthName tz e) with
    | Some _ => JsObject.keys g
    | None => JsObject.keys g ++ [monthName tz e]
    end.
Proof.
  unfold groupStep.
  destruct (JsObject.get g (monthName tz e)) eqn:G.
  - rewrite G, keys_set. now rewrite G.
  - rewrite get_set_same, !keys_set, G. now rewrite get_set_same.
Qed.

Lemma groupStep_concat g e :
  Permutation (List.concat (map snd (groupStep tz g e))) (e :: List.concat (map snd g)).
Proof.
  assert (Hset : forall (o : JsObject.t (list Evento)) k l,
             JsObject.get o k = Some l ->
             Permutation (List.concat (map snd (JsObject.set o k (l ++ [e]))))
                         (e :: List.concat (map snd o))).
  { induction o as [|[k' l'] o IH]; simpl; [discriminate|].
    intros k l. destruct (String.eqb k' k) eqn:E; simpl.
    - intros [= ->]. rewrite <- app_assoc. simpl.
      symmetry. apply Permutation_middle.
    - intros G. rewrite (IH _ _ G). symmetry. apply Permutation_middle. }
  assert (Hnew : forall (o : JsObject.t (list Evento)) k,
             JsObject.get o k = None ->
             List.concat (map snd (JsObject.set o k [])) = List.concat (map snd o)).
  { induction o as [|[k' l'] o IH]; simpl; auto.
    intros k. destruct (String.eqb k' k) eqn:E; [discriminate|].
    intros G. simpl. now rewrite IH. }
  unfold groupStep.
  destruct (JsObject.get g (monthName tz e)) eqn:G.
  - rewrite G. now apply Hset.
  - rewrite get_set_same. rewrite Hset by apply get_set_same.
    now rewrite Hnew.
Qed.

Lemma group_fold_get evs : forall g k,
  JsObject.get (fold_left (groupStep tz) evs g) k
  = match JsObject.get g k, filter (inMonth tz k) evs with
    | None, [] => None
    | x, l => Some (orNil x ++ l)
    end.
Proof.
  induction evs as [|e evs IH]; intros g k; simpl.
  - destruct (JsObject.get g k); simpl; auto. now rewrite app_nil_r.
  - rewrite IH, groupStep_get.
    destruct (inMonth tz k e); auto.
    destruct (JsObject.get g k); destruct (filter (inMonth tz k) evs);
      simpl; rewrite <- ?app_assoc; reflexivity.
Qed.

Lemma group_fold_NoDup evs : forall g,
  NoDup (JsObject.keys g) -> NoDup (JsObject.keys (fold_left (groupStep tz) evs g)).
Proof.
  induction evs as [|e evs IH]; intros g Hg; simpl; auto.
  apply IH. rewrite groupStep_keys.
  destruct (JsObject.get g (monthName tz e)) eqn:G; auto.
  apply get_None_keys in G.
  apply NoDup_rev in Hg. rewrite <- (rev_involutive (_ ++ _)).
  apply NoDup_rev. rewrite rev_app_distr. simpl. constructor; auto.
  now rewrite <- in_rev.
Qed.

Lemma group_fold_concat evs : forall g,
  Permutation (List.concat (map snd (fold_left (groupStep tz) evs g)))
              (List.concat (map snd g) ++ evs).
Proof.
  induction evs as [|e evs IH]; intros g; simpl.
  - now rewrite app_nil_r.
  - rewrite IH, groupStep_concat. simpl. apply Permutation_middle.
Qed.

Lemma group_get evs k :
  JsObject.get (groupEventosByMonth tz evs) k
  = match filter (inMonth tz k) evs with [] => None | l => Some l end.
Proof. rewrite groupEventosByMonth_fold, group_fold_get. reflexivity. Qed.

Lemma group_NoDup evs : NoDup (JsObject.keys (groupEventosByMonth tz evs)).
Proof. apply group_fold_NoDup. constructor. Qed.

Lemma group_In evs k l :
  In (k, l) (groupEventosByMonth tz evs)
  <-> l <> [] /\ l = filter (inMonth tz k) evs.
Proof.
  split.
  - intros Hin. apply In_get_Some in Hin; [|apply group_NoDup].
    rewrite group_get in Hin.
    destruct (filter (inMonth tz k) evs); [discriminate|].
    injection Hin as <-. split; [discriminate | reflexivity].
  - intros [Hne ->]. apply get_Some_In. rewrite group_get.
    now destruct (filter (inMonth tz k) evs).
Qed.

Lemma group_keys evs k :
  In k (JsObject.keys (groupEventosByMonth tz evs))
  <-> exists e, In e evs /\ monthName tz e = k.
Proof.
  split.
  - intros Hin.
    destruct (JsObject.get (groupEventosByMonth tz evs) k) as [l|] eqn:G.
    + rewrite group_get in G.
      destruct (filter (inMonth tz k) evs) as [|e l'] eqn:F; [discriminate|].
      assert (He : In e (filter (inMonth tz k) evs)) by (rewrite F; now left).
      apply filter_In in He. destruct He as [He Hk].
      exists e. split; auto. now apply String.eqb_eq.
    + apply get_None_keys in G. contradiction.
  - intros (e & He & Hk).
    destruct (JsObject.get (groupEventosByMonth tz evs) k) as [l|] eqn:G.
    + apply get_Some_In in G. change k with (fst (k, l)). now apply in_map.
    + rewrite group_get in G.
      assert (Hf : In e (filter (inMonth tz k) evs)).
      { apply filter_In. split; auto. now apply String.eqb_eq. }
      destruct (filter (inMonth tz k) evs); [destruct Hf | discriminate].
Qed.

End Grouping.

Lemma filter_Selects {A : Type} (P : A -> Prop) (f : A -> bool) (l : list A) :
  (forall x, f x = true <-> P x) -> Selects P l (filter f l).
Proof.
  intros Hf. induction l as [|x l IH]; simpl.
  - constructor.
  - destruct (f x) eqn:E.
    + apply Selects_keep; auto. now apply Hf.
    + apply Selects_drop; auto. rewrite <- Hf. congruence.
Qed.

(** C1: [groupEventosByMonth] partitions its input: the groups have distinct
    month names as keys, every event of the input lies in the group of its
    month name and in no other group, the groups together are the input as a
    multiset, no group is empty, and each group holds the events of its month
    in the order of the input. *)
Theorem groupEventosByMonth_partition (tz : Z) (eventos : list Evento) :
  let grouped := groupEventosByMonth tz eventos in
  NoDup (JsObject.keys grouped)
  /\ (forall e, In e eventos ->
        exists l, In (monthName tz e, l) grouped /\ In e l)
  /\ (forall k l e, In (k, l) grouped -> In e l -> k = monthName tz e)
  /\ Permutation (List.concat (map snd grouped)) eventos
  /\ (forall k l, In (k, l) grouped -> l <> [])
  /\ (forall k l, In (k, l) grouped ->
        Selects (fun e => monthName tz e = k) eventos l).
Proof.
  intros grouped. subst grouped. repeat split.
  - apply group_NoDup.
  - intros e He.
    exists (filter (inMonth tz (monthName tz e)) eventos).
    assert (Hin : In e (filter (inMonth tz (monthName tz e)) eventos)).
    { apply filter_In. split; auto. apply String.eqb_refl. }
    split; auto. apply group_In. split; auto.
    intros Hnil. rewrite Hnil in Hin. destruct Hin.
  - intros k l e Hkl He. apply group_In in Hkl. destruct Hkl as [_ ->].
    apply filter_In in He. destruct He as [_ He].
    symmetry. now apply String.eqb_eq.
  - rewrite groupEventosByMonth_fold.
    apply (group_fold_concat tz eventos []).
  - intros k l Hkl. now apply group_In in Hkl.
  - intros k l Hkl. apply group_In in Hkl. destruct Hkl as [_ ->].
    apply filter_Selects. intros e. apply String.eqb_eq.
Qed.

(** ** The filter *)

(** C2: with the filter ['Todas'] [getFilteredEventos] returns the list of
    events as it is; with any other filter it returns the events whose
    category is that very string, and only those, as often as they occur and
    in the order of the list. *)
Theorem getFilteredEventos_spec (p : Page) :
  (currentFilter p = "Todas" -> getFilteredEventos p = allEventos p)
  /\ (currentFilter p <> "Todas" ->
      Selects (fun e => categoria e = currentFilter p)
              (allEventos p) (getFilteredEventos p)).
Proof.
  unfold getFilteredEventos. split; intros H.
  - rewrite H. reflexivity.
  - apply String.eqb_neq in H. rewrite H.
    apply filter_Selects. intros e. apply String.eqb_eq.
Qed.

(** The match is on the whole string and on its case. *)
Example filter_is_exact :
  let p c := clickFilter Sample.brasilia c
               (Sample.page [Sample.festa; Sample.sessao; Sample.visita]) in
  getFilteredEventos (p "Feriado") = [Sample.festa]
  /\ getFilteredEventos (p "feriado") = []
  /\ getFilteredEventos (p "Feria") = []
  /\ getFilteredEventos (p "Todas") = [Sample.festa; Sample.sessao; Sample.visita].
Proof. repeat split. Qed.

(** ** The list view, in closed form *)

Lemma fold_appendChild {A : Type} (f : A -> Node) (l : list A) : forall el,
  fold_left (fun el x => Dom.appendChild el (f x)) l el
  = mkNode (tagName el) (classList el) (textContent el) (backgroundColor el)
           (attributes el) (children el ++ map f l).
Proof.
  induction l as [|x l IH]; intros el; simpl.
  - rewrite app_nil_r. now destruct el.
  - rewrite IH. simpl. now rewrite <- app_assoc.
Qed.

Lemma renderMonthGroup_eq tz month evs :
  renderMonthGroup tz month evs
  = mkNode "div" ["month-group"] "" "" []
           (monthTitleNode month :: map (renderEventItem tz) evs).
Proof. unfold renderMonthGroup. now rewrite fold_appendChild. Qed.

Lemma setEventosContainer_twice p a b :
  setEventosContainer (setEventosContainer p a) b = setEventosContainer p b.
Proof. reflexivity. Qed.

Lemma setCalendarsContainer_twice p a b :
  setCalendarsContainer (setCalendarsContainer p a) b = setCalendarsContainer p b.
Proof. reflexivity. Qed.

Lemma getFilteredEventos_setEventosContainer p c :
  getFilteredEventos (setEventosContainer p c) = getFilteredEventos p.
Proof. reflexivity. Qed.

Lemma fold_monthGroups tz (grouped : JsObject.t (list Evento))
  (F : string -> list Evento) (ks : list string) :
  (forall k, In k ks -> JsObject.get grouped k = Some (F k)) ->
  forall q,
    fold_left
      (fun p month =>
         match JsObject.get grouped month with
         | Some eventosDoMes =>
             setEventosContainer p
               (eventos_container p ++ [renderMonthGroup tz month eventosDoMes])
         | None => p
         end) ks q
    = setEventosContainer q
        (eventos_container q ++ map (fun k => renderMonthGroup tz k (F k)) ks).
Proof.
  induction ks as [|k ks IH]; intros Hks q; simpl.
  - rewrite app_nil_r. now destruct q.
  - rewrite (Hks k) by now left. rewrite IH by (intros; apply Hks; now right).
    simpl. rewrite setEventosContainer_twice. now rewrite <- app_assoc.
Qed.

Lemma renderEventsList_eq tz p :
  renderEventsList tz p
  = setEventosContainer p
      (map (fun g => renderMonthGroup tz (fst g) (snd g)) (listGroups tz p)).
Proof.
  unfold renderEventsList, listGroups.
  rewrite getFilteredEventos_setEventosContainer.
  set (filtered := getFilteredEventos p).
  set (grouped := groupEventosByMonth tz filtered).
  rewrite (fold_monthGroups tz grouped (fun k => filter (inMonth tz k) filtered)).
  - rewrite map_map. reflexivity.
  - intros k Hk. apply sort_In in Hk.
    destruct (JsObject.get grouped k) as [l|] eqn:G.
    + apply get_Some_In in G. apply group_In in G. destruct G as [_ ->]. reflexivity.
    + apply get_None_keys in G. contradiction.
Qed.

Lemma monthKeys_In tz evs k :
  In k (monthKeys (groupEventosByMonth tz evs))
  <-> exists e, In e evs /\ monthName tz e = k.
Proof. unfold monthKeys. rewrite sort_In. apply group_keys. Qed.

Lemma monthKeys_NoDup tz evs : NoDup (monthKeys (groupEventosByMonth tz evs)).
Proof.
  unfold monthKeys.
  eapply Permutation_NoDup; [symmetry; apply sort_perm | apply group_NoDup].
Qed.

Lemma monthKeys_sorted tz evs :
  StronglySorted (fun a b => mesesIndex a <= mesesIndex b)
                 (monthKeys (groupEventosByMonth tz evs)).
Proof.
  unfold monthKeys.
  apply (sort_sorted _ (fun _ => True)); try lia.
  apply Forall_forall. auto.
Qed.

Lemma sorted_strict {A : Type} (f : A -> Z) (l : list A) :
  StronglySorted (fun a b => f a <= f b) l -> NoDup l ->
  (forall a b, In a l -> In b l -> f a = f b -> a = b) ->
  StronglySorted (fun a b => f a < f b) l.
Proof.
  induction 1 as [|x l Hs IH Hx]; intros Hnd Hinj; constructor.
  - inversion Hnd; subst. apply IH; auto.
    intros a b Ha Hb. apply Hinj; now right.
  - inversion Hnd as [|? ? Hni _]; subst.
    rewrite Forall_forall in *. intros y Hy.
    specialize (Hx y Hy).
    destruct (Z.eq_dec (f x) (f y)) as [E|E]; [|lia].
    apply Hinj in E; [|now left|now right]. subst y. contradiction.
Qed.

Lemma monthKeys_strict tz evs :
  StronglySorted (fun a b => mesesIndex a < mesesIndex b)
                 (monthKeys (groupEventosByMonth tz evs)).
Proof.
  apply sorted_strict.
  - apply monthKeys_sorted.
  - apply monthKeys_NoDup.
  - intros a b Ha Hb.
    apply monthKeys_In in Ha, Hb.
    destruct Ha as (ea & _ & <-). destruct Hb as (eb & _ & <-).
    apply mesesIndex_inj; apply monthName_range.
Qed.

(** ** The grid view, in closed form *)

Lemma forUpto_appendChild (f : Z -> Node) (from upto : Z) (el : Node) :
  JsArray.forUpto from upto (fun i el => Dom.appendChild el (f i)) el
  = mkNode (tagName el) (classList el) (textContent el) (backgroundColor el)
           (attributes el)
           (children el
            ++ map (fun i => f (from + Z.of_nat i))
                   (seq 0 (Z.to_nat (upto - from + 1)))).
Proof.
  unfold JsArray.forUpto.
  exact (fold_appendChild (fun i => f (from + Z.of_nat i)) _ el).
Qed.

Lemma map_const_seq {A : Type} (x : A) (k : nat) : forall i,
  map (fun _ => x) (seq i k) = repeat x k.
Proof. induction k as [|k IH]; intros i; simpl; [|rewrite IH]; reflexivity. Qed.

Lemma blank_loop (el : Node) (w : option Z) :
  forUptoNaN 0 (option_map (fun n => n - 1) w)
    (fun _ gridDiv => Dom.appendChild gridDiv emptyCell) el
  = mkNode (tagName el) (classList el) (textContent el) (backgroundColor el)
           (attributes el) (children el ++ repeat emptyCell (blankCount w)).
Proof.
  destruct w as [n|]; unfold forUptoNaN, blankCount; cbn [option_map].
  - rewrite (forUpto_appendChild (fun _ => emptyCell)).
    replace (n - 1 - 0 + 1) with n by lia. now rewrite map_const_seq.
  - rewrite app_nil_r. now destruct el.
Qed.

Lemma day_loop (f : Z -> Node) (el : Node) (n : option Z) :
  forUptoNaN 1 n (fun day gridDiv => Dom.appendChild gridDiv (f day)) el
  = mkNode (tagName el) (classList el) (textContent el) (backgroundColor el)
           (attributes el) (children el ++ map f (dayNumbers n)).
Proof.
  destruct n as [n|]; unfold forUptoNaN, dayNumbers.
  - rewrite forUpto_appendChild.
    replace (n - 1 + 1) with n by lia. now rewrite map_map.
  - rewrite app_nil_r. now destruct el.
Qed.

Lemma renderGrid_eq tz evs ym :
  renderGrid tz evs ym
  = mkNode "div" ["calendar-grid"] "" "" []
      (map headerCell dayHeaders
       ++ repeat emptyCell (blankCount (firstDay tz ym))
       ++ map (renderDayCell evs ym) (dayNumbers (daysInMonth tz ym))).
Proof.
  unfold renderGrid.
  rewrite day_loop, blank_loop, fold_appendChild.
  cbn [tagName classList textContent backgroundColor attributes children
       Dom.setClassName Dom.createElement app].
  now rewrite <- app_assoc.
Qed.

Lemma renderCalendar_children tz evs ym :
  exists title,
    renderCalendar tz evs ym
    = mkNode "div" ["calendar"] "" "" [] [title; renderGrid tz evs ym].
Proof. unfold renderCalendar. eexists. reflexivity. Qed.

Lemma renderCalendars_eq tz p :
  renderCalendars tz p
  = setCalendarsContainer p
      (map (renderCalendar tz (allEventos p)) (getMonthsWithEvents tz p)).
Proof.
  unfold renderCalendars.
  change (getMonthsWithEvents tz (setCalendarsContainer p []))
    with (getMonthsWithEvents tz p).
  assert (H : forall ms q,
             fold_left
               (fun p ym =>
                  setCalendarsContainer p
                    (calendars_container p ++ [renderCalendar tz (allEventos p) ym]))
               ms q
             = setCalendarsContainer q
                 (calendars_container q ++ map (renderCalendar tz (allEventos q)) ms)).
  { induction ms as [|ym ms IH]; intros q; simpl.
    - rewrite app_nil_r. now destruct q.
    - rewrite IH. simpl. rewrite setCalendarsContainer_twice.
      now rewrite <- app_assoc. }
  rewrite H. reflexivity.
Qed.

(** ** The months with events *)

Lemma optZ_eqb_eq a b : optZ_eqb a b = true <-> a = b.
Proof.
  destruct a, b; simpl; split; try congruence; try discriminate.
  - intros H. apply Z.eqb_eq in H. congruence.
  - intros [= ->]. apply Z.eqb_refl.
Qed.

Lemma YearMonth_eqb_eq a b : YearMonth_eqb a b = true <-> a = b.
Proof.
  unfold YearMonth_eqb. rewrite andb_true_iff, !optZ_eqb_eq.
  destruct a, b; simpl. split; [intros [-> ->] | intros [= -> ->]]; auto.
Qed.

Section SetFacts.
Context {A B : Type} (eqb : A -> A -> bool) (f : B -> A).
Hypothesis eqb_eq : forall a b, eqb a b = true <-> a = b.

Lemma setAdd_In s x y :
  In y (JsArray.setAdd eqb s x) <-> In y s \/ y = x.
Proof.
  unfold JsArray.setAdd. destruct (existsb (eqb x) s) eqn:E.
  - apply existsb_exists in E. destruct E as (z & Hz & Hxz).
    apply eqb_eq in Hxz. subst z. split; [tauto | intros [H | ->]; auto].
  - rewrite in_app_iff. simpl. split.
    + intros [H | [H | []]]; auto.
    + intros [H | ->]; auto.
Qed.

Lemma setAdd_NoDup s x : NoDup s -> NoDup (JsArray.setAdd eqb s x).
Proof.
  intros Hs. unfold JsArray.setAdd. destruct (existsb (eqb x) s) eqn:E; auto.
  apply NoDup_rev in Hs. rewrite <- (rev_involutive (_ ++ _)).
  apply NoDup_rev. rewrite rev_app_distr. simpl. constructor; auto.
  rewrite <- in_rev. intros Hin.
  assert (existsb (eqb x) s = true); [|congruence].
  apply existsb_exists. exists x. split; auto. now apply eqb_eq.
Qed.

Lemma setFold_In l : forall s y,
  In y (fold_left (fun s e => JsArray.setAdd eqb s (f e)) l s)
  <-> In y s \/ exists e, In e l /\ f e = y.
Proof.
  induction l as [|e l IH]; intros s y; simpl.
  - split; [tauto | intros [H | (e & [] & _)]; auto].
  - rewrite IH, setAdd_In. split.
    + intros [[H | ->] | (e' & He' & Hf)]; eauto.
    + intros [H | (e' & [<- | He'] & Hf)]; eauto.
Qed.

Lemma setFold_NoDup l : forall s,
  NoDup s -> NoDup (fold_left (fun s e => JsArray.setAdd eqb s (f e)) l s).
Proof.
  induction l as [|e l IH]; intros s Hs; simpl; auto.
  apply IH. now apply setAdd_NoDup.
Qed.
End SetFacts.

Lemma getMonthsWithEvents_fold tz p :
  getMonthsWithEvents tz p
  = JsArray.sort compareMonths
      (fold_left (fun s e => JsArray.setAdd YearMonth_eqb s (monthOf tz e))
                 (allEventos p) []).
Proof. reflexivity. Qed.

(** The months are those of the events, as [monthOf] reads them. *)
Lemma getMonthsWithEvents_In tz p ym :
  In ym (getMonthsWithEvents tz p)
  <-> exists e, In e (allEventos p) /\ monthOf tz e = ym.
Proof.
  rewrite getMonthsWithEvents_fold, sort_In.
  rewrite (setFold_In _ _ YearMonth_eqb_eq). simpl. tauto.
Qed.

Lemma getMonthsWithEvents_NoDup tz p : NoDup (getMonthsWithEvents tz p).
Proof.
  rewrite getMonthsWithEvents_fold.
  eapply Permutation_NoDup; [symmetry; apply sort_perm|].
  apply (setFold_NoDup _ _ YearMonth_eqb_eq). constructor.
Qed.

Lemma getMonthsWithEvents_sorted tz p :
  Forall (fun e => JsDate.parse (data e) <> None) (allEventos p) ->
  StronglySorted monthBefore (getMonthsWithEvents tz p).
Proof.
  intros Hvalid. rewrite getMonthsWithEvents_fold.
  apply (sort_sorted _ isNumbered).
  - intros [[a|] [ma|]] [[b|] [mb|]] [Ha1 Ha2] [Hb1 Hb2]; simpl in *; try congruence.
    unfold compareMonths, monthBefore. simpl.
    destruct (a =? b) eqn:E; simpl; lia.
  - intros [[a|] [ma|]] [[b|] [mb|]] [Ha1 Ha2] [Hb1 Hb2]; simpl in *; try congruence.
    unfold compareMonths, monthBefore. simpl.
    destruct (a =? b) eqn:E; simpl; lia.
  - unfold monthBefore. intros a b c _ _ _. lia.
  - apply Forall_forall. intros ym Hym.
    apply (setFold_In _ _ YearMonth_eqb_eq) in Hym.
    destruct Hym as [[] | (e & He & <-)].
    rewrite Forall_forall in Hvalid. specialize (Hvalid e He).
    unfold isNumbered, monthOf, JsDate.getFullYear, JsDate.getMonth, JsDate.localDate.
    destruct (JsDate.parse (data e)); [|congruence].
    cbn [option_map year month]. split; discriminate.
Qed.

Lemma monthOf_cases tz e :
  realZone tz ->
  monthOf tz e = {| year := None; month := None |}
  \/ exists y m, monthOf tz e = {| year := Some y; month := Some m |}
                 /\ -14000 <= y <= 14000 /\ 1 <= m <= 12.
Proof.
  intros Htz. unfold monthOf, JsDate.getFullYear, JsDate.getMonth, JsDate.localDate.
  destruct (JsDate.isoFields (data e)) as [[[y m] d]|] eqn:Hs.
  - right. destruct (parse_day _ _ _ _ Hs) as [-> Hb].
    cbn [option_map]. rewrite Day_LocalTime by assumption.
    set (z := if tz <? 0 then _ else _).
    assert (Hz : -4000000 <= z <= 4000000) by (subst z; destruct (tz <? 0); lia).
    pose proof (civil_from_days_year z Hz) as Hy.
    pose proof (civil_from_days_month z) as Hm.
    destruct (JsDate.civil_from_days z) as [[y' m'] d']. cbn [fst snd] in *.
    exists y', m'. repeat split; try lia. f_equal. f_equal. lia.
  - left. unfold JsDate.parse. rewrite Hs. reflexivity.
Qed.

Lemma getMonthsWithEvents_datable tz p ym :
  realZone tz -> In ym (getMonthsWithEvents tz p) -> datable ym.
Proof.
  intros Htz Hin. apply getMonthsWithEvents_In in Hin. destruct Hin as (e & _ & <-).
  destruct (monthOf_cases tz e Htz) as [-> | (y & m & -> & Hy & Hm)];
    unfold datable; simpl; lia.
Qed.

Lemma ofFields_value tz y m d :
  realZone tz -> -14000 <= y <= 14000 -> -1 <= m <= 12 -> 0 <= d <= 1 ->
  JsDate.ofFields tz y m d
  = Some (JsDate.UTC tz (JsDate.MakeDay (centuryYear y) m d * JsDate.msPerDay)).
Proof.
  intros Htz Hy Hm Hd. unfold JsDate.ofFields. cbv zeta.
  fold (centuryYear y). apply TimeClip_small.
  assert (Hc : -14000 <= centuryYear y <= 14000).
  { unfold centuryYear. destruct (_ && _) eqn:E; lia. }
  unfold JsDate.MakeDay.
  assert (Hb := days_from_civil_bound (centuryYear y + m / 12) (m mod 12 + 1) 1).
  unfold realZone in Htz.
  unfold JsDate.UTC, JsDate.msPerDay, JsDate.msPerMinute.
  assert (-20000 <= centuryYear y + m / 12 <= 20000) by dlia.
  assert (1 <= m mod 12 + 1 <= 12) by dlia.
  lia.
Qed.

Lemma firstDay_value tz ym :
  realZone tz -> datable ym ->
  firstDay tz ym
  = Some ((JsDate.MakeDay (centuryYear (toNumber (year ym)))
                          (toNumber (month ym) - 1) 1 + 4) mod 7).
Proof.
  intros Htz [Hy Hm]. unfold firstDay.
  rewrite ofFields_value by (auto; lia).
  unfold JsDate.getDay, JsDate.WeekDay. cbn [option_map].
  now rewrite LocalTime_UTC, Day_of_days.
Qed.

Lemma daysInMonth_value tz ym :
  realZone tz -> datable ym ->
  daysInMonth tz ym
  = Some (snd (JsDate.civil_from_days
                 (JsDate.MakeDay (centuryYear (toNumber (year ym)))
                                 (toNumber (month ym)) 0))).
Proof.
  intros Htz [Hy Hm]. unfold daysInMonth.
  rewrite ofFields_value by (auto; lia).
  unfold JsDate.getDate, JsDate.localDate. cbn [option_map].
  rewrite LocalTime_UTC, Day_of_days.
  now destruct (JsDate.civil_from_days _) as [[? ?] ?].
Qed.

(** What the two counts are in the calendar: for a month from 1 to 12 the
    weekday of its first day and its length, in the year the [Date]
    constructor takes for [year]. *)
Lemma firstDay_calendar tz y m :
  realZone tz -> -14000 <= y <= 14000 -> 1 <= m <= 12 ->
  firstDay tz {| year := Some y; month := Some m |}
  = Some ((JsDate.days_from_civil (centuryYear y) m 1 + 4) mod 7).
Proof.
  intros Htz Hy Hm. rewrite firstDay_value by (auto; unfold datable; simpl; lia).
  cbn [toNumber year month]. unfold JsDate.MakeDay.
  replace ((m - 1) / 12) with 0 by dlia.
  replace ((m - 1) mod 12 + 1) with m by dlia.
  replace (centuryYear y + 0) with (centuryYear y) by lia.
  f_equal. f_equal. lia.
Qed.

Lemma daysInMonth_calendar tz y m :
  realZone tz -> -14000 <= y <= 14000 -> 1 <= m <= 12 ->
  daysInMonth tz {| year := Some y; month := Some m |}
  = Some (JsDate.daysIn (centuryYear y) m).
Proof.
  intros Htz Hy Hm. rewrite daysInMonth_value by (auto; unfold datable; simpl; lia).
  cbn [toNumber year month]. unfold JsDate.MakeDay.
  rewrite days_from_civil_next_month by assumption.
  replace (JsDate.days_from_civil (centuryYear y) m (JsDate.daysIn (centuryYear y) m) + 1 + 0 - 1)
    with (JsDate.days_from_civil (centuryYear y) m (JsDate.daysIn (centuryYear y) m)) by lia.
  rewrite civil_roundtrip; auto.
  unfold JsDate.daysIn.
  repeat match goal with |- context [if ?b then _ else _] => destruct b end; lia.
Qed.

(** ** The cells of a grid *)

Lemma renderDayCell_eq evs ym day :
  renderDayCell evs ym day
  = match filter (fun e => String.eqb (data e) (dateStr ym day)) evs with
    | evento :: _ => markEvento (plainDayCell day) evento
    | [] => plainDayCell day
    end.
Proof. reflexivity. Qed.

Lemma get_In_values {V : Type} (o : JsObject.t V) k v :
  JsObject.get o k = Some v -> In v (map snd o).
Proof.
  intros H. apply get_Some_In in H. change v with (snd (k, v)). now apply in_map.
Qed.

Lemma cssClass_range (categoria : string) :
  In (JsString.orElse (JsObject.get categoryCssClasses categoria) "sematividade")
     cssClasses.
Proof.
  destruct (JsObject.get categoryCssClasses categoria) as [v|] eqn:G; [|now left].
  apply get_In_values in G. unfold JsString.orElse.
  destruct v; [now left | now right].
Qed.

Lemma markEvento_classes day evento :
  classList (markEvento (plainDayCell day) evento)
  = ["day-cell"; "has-event";
     JsString.orElse (JsObject.get categoryCssClasses (categoria evento)) "sematividade"].
Proof.
  unfold markEvento. cbv zeta.
  pose proof (cssClass_range (categoria evento)) as Hc.
  set (c := JsString.orElse _ "sematividade") in *.
  cbn [classList Dom.setAttribute Dom.setBackgroundColor].
  unfold Dom.classListAdd, cssClasses in *. cbn [classList Dom.setClassName plainDayCell].
  cbn [map snd categoryCssClasses In] in Hc.
  repeat (destruct Hc as [<- | Hc]; [reflexivity|]). destruct Hc.
Qed.

Lemma isDay_renderDayCell evs ym day : isDay (renderDayCell evs ym day) = true.
Proof.
  rewrite renderDayCell_eq.
  destruct (filter _ evs) as [|evento ?]; [reflexivity|].
  unfold isDay, hasClass. rewrite markEvento_classes.
  pose proof (cssClass_range (categoria evento)) as Hc.
  set (c := JsString.orElse _ "sematividade") in *.
  cbn [map snd categoryCssClasses cssClasses In] in Hc.
  repeat (destruct Hc as [<- | Hc]; [reflexivity|]). destruct Hc.
Qed.

Lemma isBlank_renderDayCell evs ym day : isBlank (renderDayCell evs ym day) = false.
Proof.
  pose proof (isDay_renderDayCell evs ym day) as H. unfold isDay in H.
  apply andb_true_iff in H. destruct H as [_ H].
  now apply negb_true_iff in H.
Qed.

Lemma filter_none {A : Type} (f : A -> bool) (l : list A) :
  Forall (fun x => f x = false) l -> filter f l = [].
Proof. induction 1 as [|x l Hx _ IH]; simpl; [|rewrite Hx]; auto. Qed.

Lemma filter_all {A : Type} (f : A -> bool) (l : list A) :
  Forall (fun x => f x = true) l -> filter f l = l.
Proof. induction 1 as [|x l Hx _ IH]; simpl; [|rewrite Hx, IH]; auto. Qed.

Lemma gridOf_renderCalendar tz evs ym :
  gridOf (renderCalendar tz evs ym)
  = map headerCell dayHeaders
    ++ repeat emptyCell (blankCount (firstDay tz ym))
    ++ map (renderDayCell evs ym) (dayNumbers (daysInMonth tz ym)).
Proof.
  destruct (renderCalendar_children tz evs ym) as [title ->].
  unfold gridOf. cbn [children]. now rewrite renderGrid_eq.
Qed.

Lemma blanks_of_grid tz evs ym :
  filter isBlank (gridOf (renderCalendar tz evs ym))
  = repeat emptyCell (blankCount (firstDay tz ym)).
Proof.
  rewrite gridOf_renderCalendar, !filter_app.
  rewrite (filter_none isBlank (map headerCell dayHeaders))
    by (repeat constructor).
  rewrite (filter_all isBlank (repeat _ _))
    by (apply Forall_forall; intros x Hx; apply repeat_spec in Hx; now subst x).
  rewrite (filter_none isBlank (map _ (dayNumbers _))).
  - now rewrite app_nil_r.
  - apply Forall_forall. intros x Hx. apply in_map_iff in Hx.
    destruct Hx as (d & <- & _). apply isBlank_renderDayCell.
Qed.

Lemma days_of_grid tz evs ym :
  filter isDay (gridOf (renderCalendar tz evs ym))
  = map (renderDayCell evs ym) (dayNumbers (daysInMonth tz ym)).
Proof.
  rewrite gridOf_renderCalendar, !filter_app.
  rewrite (filter_none isDay (map headerCell dayHeaders))
    by (repeat constructor).
  rewrite (filter_none isDay (repeat _ _))
    by (apply Forall_forall; intros x Hx; apply repeat_spec in Hx; now subst x).
  rewrite (filter_all isDay (map _ (dayNumbers _))); [reflexivity|].
  apply Forall_forall. intros x Hx. apply in_map_iff in Hx.
  destruct Hx as (d & <- & _). apply isDay_renderDayCell.
Qed.

Lemma dayNumbers_length n : 0 <= n -> Z.of_nat (List.length (dayNumbers (Some n))) = n.
Proof. intros H. unfold dayNumbers. rewrite length_map, length_seq. lia. Qed.

Lemma dayNumbers_In n day : In day (dayNumbers (Some n)) <-> 1 <= day <= n.
Proof.
  unfold dayNumbers. rewrite in_map_iff. split.
  - intros (i & <- & Hi). apply in_seq in Hi. lia.
  - intros H. exists (Z.to_nat (day - 1)). split; [lia|]. apply in_seq. lia.
Qed.

(** ** The cells of a calendar *)

Lemma renderCalendars_blocks tz p cal :
  In cal (calendars_container (renderCalendars tz p))
  <-> exists ym, In ym (getMonthsWithEvents tz p)
                 /\ cal = renderCalendar tz (allEventos p) ym.
Proof.
  rewrite renderCalendars_eq. cbn [calendars_container setCalendarsContainer].
  rewrite in_map_iff. split; intros (ym & H1 & H2); exists ym; auto.
Qed.

Lemma firstDay_range tz ym :
  realZone tz -> datable ym ->
  exists w, firstDay tz ym = Some w /\ 0 <= w <= 6.
Proof.
  intros Htz Hym. rewrite firstDay_value by assumption.
  eexists. split; [reflexivity | dlia].
Qed.

Lemma daysInMonth_range tz ym :
  realZone tz -> datable ym ->
  exists n, daysInMonth tz ym = Some n /\ 1 <= n <= 31.
Proof.
  intros Htz Hym. rewrite daysInMonth_value by assumption.
  eexists. split; [reflexivity | apply civil_from_days_day].
Qed.

Lemma blank_cells_count tz evs ym :
  realZone tz -> datable ym ->
  firstDay tz ym
  = Some (Z.of_nat (List.length (filter isBlank (gridOf (renderCalendar tz evs ym))))).
Proof.
  intros Htz Hym. rewrite blanks_of_grid.
  destruct (firstDay_range tz ym Htz Hym) as (w & -> & Hw).
  cbn [blankCount]. rewrite repeat_length. f_equal. lia.
Qed.

Lemma day_cells_count tz evs ym :
  realZone tz -> datable ym ->
  daysInMonth tz ym
  = Some (Z.of_nat (List.length (filter isDay (gridOf (renderCalendar tz evs ym))))).
Proof.
  intros Htz Hym. rewrite days_of_grid.
  destruct (daysInMonth_range tz ym Htz Hym) as (n & -> & Hn).
  rewrite length_map, dayNumbers_length by lia. reflexivity.
Qed.

Lemma getMonthsWithEvents_numbered tz p y m :
  realZone tz ->
  In {| year := Some y; month := Some m |} (getMonthsWithEvents tz p) ->
  -14000 <= y <= 14000 /\ 1 <= m <= 12.
Proof.
  intros Htz Hin. apply getMonthsWithEvents_In in Hin. destruct Hin as (e & _ & He).
  destruct (monthOf_cases tz e Htz) as [H | (y' & m' & H & Hy & Hm)];
    rewrite H in He; [discriminate|].
  injection He as <- <-. auto.
Qed.

(** C3: in every calendar [renderCalendars] builds, the number of blank
    cells is [new Date(year, month - 1, 1).getDay()], the weekday of the first
    day of the month with Sunday as 0, and the number of day cells is
    [new Date(year, month, 0).getDate()], the day before the first of the next
    month, which is the length of the month; the year is the one the [Date]
    constructor takes for [year].  The calendar of February 2026 has 28 day
    cells, the one of February 2024 has 29, and the one of March 2026 has no
    blank cell. *)
Theorem renderCalendars_cell_counts (tz : Z) (p : Page) :
  realZone tz ->
  (forall cal, In cal (calendars_container (renderCalendars tz p)) ->
     exists ym,
       In ym (getMonthsWithEvents tz p)
       /\ cal = renderCalendar tz (allEventos p) ym
       /\ firstDay tz ym
          = Some (Z.of_nat (List.length (filter isBlank (gridOf cal))))
       /\ daysInMonth tz ym
          = Some (Z.of_nat (List.length (filter isDay (gridOf cal))))
       /\ (forall y m, ym = {| year := Some y; month := Some m |} ->
             firstDay tz ym
             = Some ((JsDate.days_from_civil (centuryYear y) m 1 + 4) mod 7)
             /\ daysInMonth tz ym = Some (JsDate.daysIn (centuryYear y) m)))
  /\ List.length (filter isDay
        (gridOf (renderCalendar tz (allEventos p)
                   {| year := Some 2026; month := Some 2 |}))) = 28%nat
  /\ List.length (filter isDay
        (gridOf (renderCalendar tz (allEventos p)
                   {| year := Some 2024; month := Some 2 |}))) = 29%nat
  /\ List.length (filter isBlank
        (gridOf (renderCalendar tz (allEventos p)
                   {| year := Some 2026; month := Some 3 |}))) = 0%nat.
Proof.
  intros Htz. split; [|split; [|split]].
  - intros cal Hcal. apply renderCalendars_blocks in Hcal.
    destruct Hcal as (ym & Hym & ->). exists ym.
    pose proof (getMonthsWithEvents_datable tz p ym Htz Hym) as Hd.
    split; [assumption|]. split; [reflexivity|].
    split; [now apply blank_cells_count|].
    split; [now apply day_cells_count|].
    intros y m ->.
    destruct (getMonthsWithEvents_numbered tz p y m Htz Hym) as [Hy Hm].
    split; [now apply firstDay_calendar | now apply daysInMonth_calendar].
  - rewrite days_of_grid, length_map.
    rewrite daysInMonth_calendar by (auto; lia). reflexivity.
  - rewrite days_of_grid, length_map.
    rewrite daysInMonth_calendar by (auto; lia). reflexivity.
  - rewrite blanks_of_grid.
    rewrite firstDay_calendar by (auto; lia). reflexivity.
Qed.

Lemma renderCalendars_cell_counts_witness :
  realZone Sample.brasilia
  /\ List.length (filter isDay
        (gridOf (renderCalendar Sample.brasilia [Sample.festa]
                   {| year := Some 2026; month := Some 2 |}))) = 28%nat.
Proof.
  assert (Htz : realZone Sample.brasilia)
    by (unfold realZone, Sample.brasilia; lia).
  split; [exact Htz|].
  exact (proj1 (proj2 (renderCalendars_cell_counts Sample.brasilia
                         (Sample.page [Sample.festa]) Htz))).
Defined.

(** C10: the grid of every calendar [renderCalendars] builds is the 7 weekday
    headers, then the blank cells, then one cell for each day of the month
    from 1 to the last, and nothing after it; so it has 7 cells, plus the
    weekday of the first day, plus the days of the month, which need not be a
    multiple of 7: the grid of March 2026 has 38 cells. *)
Theorem renderCalendars_grid_shape (tz : Z) (p : Page) :
  realZone tz ->
  (forall cal, In cal (calendars_container (renderCalendars tz p)) ->
     exists ym w n,
       In ym (getMonthsWithEvents tz p)
       /\ firstDay tz ym = Some w /\ 0 <= w <= 6
       /\ daysInMonth tz ym = Some n /\ 1 <= n <= 31
       /\ gridOf cal
          = map headerCell dayHeaders
            ++ repeat emptyCell (Z.to_nat w)
            ++ map (renderDayCell (allEventos p) ym)
                   (map (fun i => 1 + Z.of_nat i) (seq 0 (Z.to_nat n)))
       /\ List.length (map headerCell dayHeaders) = 7%nat
       /\ Z.of_nat (List.length (gridOf cal)) = 7 + w + n
       /\ (exists cells,
             gridOf cal = cells ++ [renderDayCell (allEventos p) ym n]))
  /\ (let grid := gridOf (renderCalendar tz (allEventos p)
                            {| year := Some 2026; month := Some 3 |}) in
      List.length grid = 38%nat /\ Z.of_nat (List.length grid) mod 7 <> 0).
Proof.
  intros Htz. split.
  - intros cal Hcal. apply renderCalendars_blocks in Hcal.
    destruct Hcal as (ym & Hym & ->).
    pose proof (getMonthsWithEvents_datable tz p ym Htz Hym) as Hd.
    destruct (firstDay_range tz ym Htz Hd) as (w & Hw & Hwr).
    destruct (daysInMonth_range tz ym Htz Hd) as (n & Hn & Hnr).
    exists ym, w, n. rewrite gridOf_renderCalendar, Hw, Hn.
    cbn [blankCount dayNumbers].
    repeat split; auto; try lia.
    + rewrite !length_app, repeat_length, !length_map, length_seq.
      cbn [List.length dayHeaders]. lia.
    + replace (Z.to_nat n) with (Z.to_nat (n - 1) + 1)%nat by lia.
      rewrite seq_app, !map_app. cbn [seq map].
      replace (1 + Z.of_nat (0 + Z.to_nat (n - 1))) with n by lia.
      rewrite !app_assoc. eexists. reflexivity.
  - cbv zeta. rewrite gridOf_renderCalendar.
    rewrite firstDay_calendar, daysInMonth_calendar by (auto; lia).
    rewrite !length_app, repeat_length, !length_map.
    split; [reflexivity | discriminate].
Qed.

Lemma renderCalendars_grid_shape_witness :
  realZone Sample.brasilia
  /\ (let grid := gridOf (renderCalendar Sample.brasilia [Sample.festa]
                            {| year := Some 2026; month := Some 3 |}) in
      List.length grid = 38%nat /\ Z.of_nat (List.length grid) mod 7 <> 0).
Proof.
  assert (Htz : realZone Sample.brasilia)
    by (unfold realZone, Sample.brasilia; lia).
  split; [exact Htz|].
  exact (proj2 (renderCalendars_grid_shape Sample.brasilia
                  (Sample.page [Sample.festa]) Htz)).
Defined.

(** ** Date strings and the cells they mark *)

Lemma digit_char c x :
  JsDate.digit c = Some x -> c = digitChar x /\ In x decimalDigits.
Proof.
  unfold JsDate.digit. cbv zeta.
  destruct (_ && _) eqn:E; [|discriminate]. intros H.
  assert (Hx : x = Z.of_nat (nat_of_ascii c) - 48) by congruence.
  apply andb_true_iff in E. destruct E as [E1 E2].
  apply Z.leb_le in E1, E2. split.
  - unfold digitChar. rewrite Hx.
    replace (Z.to_nat (48 + (Z.of_nat (nat_of_ascii c) - 48))) with (nat_of_ascii c) by lia.
    now rewrite ascii_nat_embedding.
  - unfold decimalDigits. simpl. lia.
Qed.

(** [String(n)] is the four digits of a number from 1000 to 9999. *)
Lemma fourDigitsPrinted :
  forallb (fun a => forallb (fun b => forallb (fun c => forallb (fun d =>
    String.eqb (JsString.ofNumber (100 * (10 * a + b) + (10 * c + d)))
               (String (digitChar a) (String (digitChar b)
                  (String (digitChar c) (String (digitChar d) "")))))
    decimalDigits) decimalDigits) decimalDigits) (tl decimalDigits) = true.
Proof. vm_compute. reflexivity. Qed.

(** [String(n).padStart(2, '0')] is the two digits of a number below 100. *)
Lemma twoDigitsPadded :
  forallb (fun a => forallb (fun b =>
    String.eqb (JsString.padStart2 (JsString.ofNumber (10 * a + b)))
               (String (digitChar a) (String (digitChar b) "")))
    decimalDigits) decimalDigits = true.
Proof. vm_compute. reflexivity. Qed.

Lemma ofNumber_four a b c d :
  In a (tl decimalDigits) -> In b decimalDigits -> In c decimalDigits ->
  In d decimalDigits ->
  JsString.ofNumber (100 * (10 * a + b) + (10 * c + d))
  = String (digitChar a) (String (digitChar b)
      (String (digitChar c) (String (digitChar d) ""))).
Proof.
  intros Ha Hb Hc Hd.
  apply String.eqb_eq.
  pose proof (proj1 (forallb_forall _ _) fourDigitsPrinted a Ha) as H.
  pose proof (proj1 (forallb_forall _ _) H b Hb) as H1.
  pose proof (proj1 (forallb_forall _ _) H1 c Hc) as H2.
  exact (proj1 (forallb_forall _ _) H2 d Hd).
Qed.

Lemma padStart2_two a b :
  In a decimalDigits -> In b decimalDigits ->
  JsString.padStart2 (JsString.ofNumber (10 * a + b))
  = String (digitChar a) (String (digitChar b) "").
Proof.
  intros Ha Hb.
  apply String.eqb_eq.
  pose proof (proj1 (forallb_forall _ _) twoDigitsPadded a Ha) as H.
  exact (proj1 (forallb_forall _ _) H b Hb).
Qed.

(** The date string [renderCalendars] builds for a day is the string the
    day was read from, when the year has four digits. *)
Lemma dateStr_isoFields s y m d :
  JsDate.isoFields s = Some (y, m, d) -> 1000 <= y ->
  dateStr {| year := Some y; month := Some m |} d = s.
Proof.
  unfold JsDate.isoFields. intros H Hy.
  rewrite <- (string_of_list_ascii_of_string s).
  destruct (list_ascii_of_string s) as
    [|y1 [|y2 [|y3 [|y4 [|s1 [|m1 [|m2 [|s2 [|d1 [|d2 [|? ?]]]]]]]]]]];
    try discriminate.
  destruct (JsDate.isDash s1 && JsDate.isDash s2) eqn:Es; [|discriminate].
  apply andb_true_iff in Es. destruct Es as [Es1 Es2].
  apply Ascii.eqb_eq in Es1, Es2. subst s1 s2.
  unfold JsDate.num4, JsDate.num2 in H.
  destruct (JsDate.digit y1) as [a1|] eqn:E1; [|discriminate].
  destruct (JsDate.digit y2) as [a2|] eqn:E2; [|discriminate].
  destruct (JsDate.digit y3) as [a3|] eqn:E3; [|discriminate].
  destruct (JsDate.digit y4) as [a4|] eqn:E4; [|discriminate].
  destruct (JsDate.digit m1) as [b1|] eqn:E5; [|discriminate].
  destruct (JsDate.digit m2) as [b2|] eqn:E6; [|discriminate].
  destruct (JsDate.digit d1) as [c1|] eqn:E7; [|discriminate].
  destruct (JsDate.digit d2) as [c2|] eqn:E8; [|discriminate].
  destruct (_ && _); [|discriminate].
  assert (Hf : y = 100 * (10 * a1 + a2) + (10 * a3 + a4)
               /\ m = 10 * b1 + b2 /\ d = 10 * c1 + c2)
    by (repeat split; congruence).
  destruct Hf as (-> & -> & ->). clear H.
  apply digit_char in E1, E2, E3, E4, E5, E6, E7, E8.
  destruct E1 as [-> A1], E2 as [-> A2], E3 as [-> A3], E4 as [-> A4],
           E5 as [-> B1], E6 as [-> B2], E7 as [-> C1], E8 as [-> C2].
  assert (A1' : In a1 (tl decimalDigits)).
  { unfold decimalDigits in *. cbn [tl]. simpl in A1, A2, A3, A4. simpl. lia. }
  unfold dateStr. cbn [year month JsString.ofNull].
  rewrite ofNumber_four, !padStart2_two by assumption.
  reflexivity.
Qed.

(** The local date of a date string: the date itself at UTC and east of it,
    the day before west of it. *)
Lemma localDate_string tz s y m d :
  realZone tz -> JsDate.isoFields s = Some (y, m, d) ->
  d <= JsDate.daysIn y m -> 0 <= tz \/ 2 <= d ->
  JsDate.localDate tz (JsDate.parse s)
  = Some (y, m, if tz <? 0 then d - 1 else d).
Proof.
  intros Htz Hs Hd Hw.
  pose proof (isoFields_range _ _ _ _ Hs) as (Hy & Hm & Hd').
  destruct (parse_day _ _ _ _ Hs) as [-> _].
  unfold JsDate.localDate. cbn [option_map].
  rewrite Day_LocalTime by assumption.
  destruct (tz <? 0) eqn:E.
  - apply Z.ltb_lt in E.
    replace (JsDate.days_from_civil y m d - 1) with (JsDate.days_from_civil y m (d - 1))
      by (unfold JsDate.days_from_civil; cbv zeta; lia).
    rewrite civil_roundtrip by lia. reflexivity.
  - rewrite civil_roundtrip by lia. reflexivity.
Qed.




(** ** Events that share a date *)





(** The scenario of the specification: two events on 2026-03-15. *)
Example two_events_on_one_day :
  let p := Sample.page [Sample.festa; Sample.sessao] in
  let tz := Sample.brasilia in
  getMonthsWithEvents tz p = [{| year := Some 2026; month := Some 3 |}]
  /\ nth_error
       (gridOf (renderCalendar tz (allEventos p)
                  {| year := Some 2026; month := Some 3 |})) (7 + 0 + 14)
     = Some (markEvento (plainDayCell 15) Sample.festa)
  /\ map (fun g => (fst g, map titulo (snd g))) (listGroups tz p)
     = [("Março", ["Festa"; "Sessão magna"])].
Proof. vm_compute. repeat split. Qed.

(** West of UTC the day the list shows for an event is the day before its
    date: the row of the event of 2026-03-15 shows 14 in Brasilia time, while
    the grid marks the cell of day 15. *)
Example list_day_west_of_utc :
  option_map textContent (dateBoxOf (renderEventItem Sample.brasilia Sample.festa))
  = Some "14"
  /\ option_map textContent (dateBoxOf (renderEventItem 0 Sample.festa))
     = Some "15".
Proof. vm_compute. split; reflexivity. Qed.

(** ** The order of the month groups *)

Lemma listGroups_keys tz p :
  map fst (listGroups tz p)
  = monthKeys (groupEventosByMonth tz (getFilteredEventos p)).
Proof. unfold listGroups. rewrite map_map. apply map_id. Qed.

Lemma headings_eq tz p :
  map headingOf (eventos_container (renderEventsList tz p))
  = monthKeys (groupEventosByMonth tz (getFilteredEventos p)).
Proof.
  rewrite renderEventsList_eq. cbn [eventos_container setEventosContainer].
  rewrite map_map, <- listGroups_keys.
  apply map_ext. intros g. now rewrite renderMonthGroup_eq.
Qed.

(** C5: the month groups [renderEventsList] shows are headed by distinct
    month names that follow one another in the order of [meses], January to
    December, whatever the years of the events: a group holds, one row each
    and in the order of the list, all the filtered events with its month
    name.  Events of April 2026, March 2026, January 2027 and March 2027 come
    out as Janeiro, then Marco with the events of both years, then Abril. *)
Theorem renderEventsList_month_order (tz : Z) (p : Page) :
  let groups := eventos_container (renderEventsList tz p) in
  StronglySorted (fun a b => mesesIndex a < mesesIndex b) (map headingOf groups)
  /\ (forall e, In e (getFilteredEventos p) ->
        exists group,
          In group groups /\ headingOf group = monthName tz e
          /\ In (renderEventItem tz e) (rowsOf group))
  /\ (forall group, In group groups ->
        exists eventosDoMes,
          rowsOf group = map (renderEventItem tz) eventosDoMes
          /\ Selects (fun e => monthName tz e = headingOf group)
                     (getFilteredEventos p) eventosDoMes)
  /\ (let q := Sample.page [Sample.visita; Sample.festa; Sample.reuniao; Sample.jantar] in
      map (fun g => (fst g, map data (snd g))) (listGroups Sample.brasilia q)
      = [("Janeiro", ["2027-01-20"]);
         ("Março", ["2026-03-15"; "2027-03-10"]);
         ("Abril", ["2026-04-10"])]).
Proof.
  cbv zeta. repeat split.
  - rewrite headings_eq. apply monthKeys_strict.
  - intros e He.
    set (k := monthName tz e).
    exists (renderMonthGroup tz k (filter (inMonth tz k) (getFilteredEventos p))).
    rewrite renderMonthGroup_eq. repeat split.
    + rewrite renderEventsList_eq. cbn [eventos_container setEventosContainer].
      apply in_map_iff. exists (k, filter (inMonth tz k) (getFilteredEventos p)).
      split; [now rewrite renderMonthGroup_eq|].
      unfold listGroups. apply in_map_iff. exists k. split; auto.
      apply monthKeys_In. exists e. auto.
    + unfold rowsOf. cbn [children tl]. apply in_map.
      apply filter_In. split; auto. apply String.eqb_refl.
  - intros group Hg. rewrite renderEventsList_eq in Hg.
    cbn [eventos_container setEventosContainer] in Hg.
    apply in_map_iff in Hg. destruct Hg as ([k evs] & <- & Hg).
    unfold listGroups in Hg. apply in_map_iff in Hg.
    destruct Hg as (k' & [= <- <-] & _).
    rewrite renderMonthGroup_eq. eexists. split; [reflexivity|].
    apply filter_Selects. intros e. apply String.eqb_eq.
Qed.

(** ** Drawing twice *)

(** C9: drawing the list a second time, or the calendars a second time, on the
    same events, filter and time zone leaves the page as the first drawing
    left it; and what a drawing leaves in its container does not depend on
    what the container held before. *)
Theorem render_twice (tz : Z) (p : Page) :
  renderEventsList tz (renderEventsList tz p) = renderEventsList tz p
  /\ renderCalendars tz (renderCalendars tz p) = renderCalendars tz p
  /\ (forall before,
        eventos_container (renderEventsList tz (setEventosContainer p before))
        = eventos_container (renderEventsList tz p))
  /\ (forall before,
        calendars_container (renderCalendars tz (setCalendarsContainer p before))
        = calendars_container (renderCalendars tz p)).
Proof.
  split; [|split; [|split]].
  - rewrite !renderEventsList_eq. reflexivity.
  - rewrite !renderCalendars_eq. reflexivity.
  - intros before. rewrite !renderEventsList_eq. reflexivity.
  - intros before. rewrite !renderCalendars_eq. reflexivity.
Qed.

(** ** Categories without a style *)





(** ** A load that fails *)

(** C7: when the request of [loadData] fails or its body is not JSON, the
    call ends without an exception, the list of events, the filter and both
    views are as before the call, and the only change of the page is one
    more line on the console. *)
Theorem loadData_failure (tz : Z) (outcome : FetchOutcome) (p : Page) :
  fetchFails outcome ->
  exists p' line,
    loadData tz outcome p = (p', None)
    /\ allEventos p' = allEventos p
    /\ currentFilter p' = currentFilter p
    /\ calendars_container p' = calendars_container p
    /\ eventos_container p' = eventos_container p
    /\ local_info p' = local_info p
    /\ contact_info p' = contact_info p
    /\ logo p' = logo p
    /\ console p' = console p ++ [line].
Proof.
  destruct outcome as [reason | [body|]]; simpl; intros H; try contradiction;
    eexists; eexists; (split; [reflexivity|]); repeat split.
Qed.

Lemma loadData_failure_witness :
  exists p' line,
    loadData Sample.brasilia (NetworkError "Failed to fetch")
             (renderEventsList Sample.brasilia
                (renderCalendars Sample.brasilia (Sample.page [Sample.festa])))
    = (p', None)
    /\ allEventos p' = [Sample.festa]
    /\ console p' = [line].
Proof.
  destruct (loadData_failure Sample.brasilia (NetworkError "Failed to fetch")
              (renderEventsList Sample.brasilia
                 (renderCalendars Sample.brasilia (Sample.page [Sample.festa]))) I)
    as (p' & line & H1 & H2 & _ & _ & _ & _ & _ & _ & H9).
  exists p', line. repeat split; assumption.
Defined.

(** A load that succeeds replaces the events and draws both views. *)
Lemma loadData_success tz data p :
  exists p',
    loadData tz (Response (Some data)) p = (p', None)
    /\ allEventos p' = match eventos data with Some l => l | None => [] end
    /\ currentFilter p' = currentFilter p
    /\ console p' = console p.
Proof.
  unfold loadData, loadData_try. cbv zeta. eexists. split; [reflexivity|].
  rewrite renderEventsList_eq, renderCalendars_eq.
  destruct (config data); repeat split.
Qed.

(** ** The months of the grid and the time zone *)

(** C6, west of UTC: the month [getMonthsWithEvents] reads from an event on
    the first day of a month is the month before.  In Brasilia time the one
    member for an event dated 2026-03-01 is February 2026, not March 2026,
    and in the one calendar drawn no cell carries the event; at UTC the
    member is March 2026. *)
Theorem getMonthsWithEvents_west_of_utc :
  let p := Sample.page [Sample.posse] in
  let tz := Sample.brasilia in
  JsDate.isoFields (data Sample.posse) = Some (2026, 3, 1)
  /\ getMonthsWithEvents tz p = [{| year := Some 2026; month := Some 2 |}]
  /\ map (fun cal => List.length (filter (hasClass "has-event") (gridOf cal)))
         (calendars_container (renderCalendars tz p)) = [0%nat]
  /\ getMonthsWithEvents 0 p = [{| year := Some 2026; month := Some 3 |}].
Proof. vm_compute. repeat split. Qed.

(** At UTC and east of it the months are those of the date strings. *)
Lemma monthOf_east tz e y m d :
  0 <= tz <= 840 ->
  JsDate.isoFields (data e) = Some (y, m, d) -> d <= JsDate.daysIn y m ->
  monthOf tz e = {| year := Some y; month := Some m |}.
Proof.
  intros Htz Hs Hd.
  pose proof (isoFields_range _ _ _ _ Hs) as (Hy & Hm & Hd').
  destruct (parse_day _ _ _ _ Hs) as [Hp _].
  unfold monthOf, JsDate.getFullYear, JsDate.getMonth, JsDate.localDate.
  rewrite Hp. cbn [option_map].
  rewrite Day_LocalTime by (unfold realZone; lia).
  replace (tz <? 0) with false by lia.
  rewrite civil_roundtrip by lia. cbn [option_map]. do 2 f_equal. lia.
Qed.

(** West of UTC they are the months of the day before. *)
Lemma monthOf_west tz e y m d :
  -720 <= tz < 0 ->
  JsDate.isoFields (data e) = Some (y, m, d) ->
  monthOf tz e
  = let '(y', m', _) := JsDate.civil_from_days (JsDate.days_from_civil y m d - 1) in
    {| year := Some y'; month := Some m' |}.
Proof.
  intros Htz Hs.
  destruct (parse_day _ _ _ _ Hs) as [Hp _].
  unfold monthOf, JsDate.getFullYear, JsDate.getMonth, JsDate.localDate.
  rewrite Hp. cbn [option_map].
  rewrite Day_LocalTime by (unfold realZone; lia).
  replace (tz <? 0) with true by lia.
  destruct (JsDate.civil_from_days _) as [[y' m'] d'].
  cbn [option_map]. do 2 f_equal. lia.
Qed.

(** West of UTC an event on the first day of a month is counted in the month
    before it, whatever the month. *)
Lemma monthOf_first_day_west tz e y m :
  -720 <= tz < 0 -> JsDate.isoFields (data e) = Some (y, m, 1) ->
  monthOf tz e
  = if m =? 1 then {| year := Some (y - 1); month := Some 12 |}
    else {| year := Some y; month := Some (m - 1) |}.
Proof.
  intros Htz Hs.
  pose proof (isoFields_range _ _ _ _ Hs) as (Hy & Hm & _).
  rewrite (monthOf_west tz e y m 1 Htz Hs).
  destruct (m =? 1) eqn:E.
  - apply Z.eqb_eq in E. subst m.
    pose proof (days_from_civil_next_month (y - 1) 12 ltac:(lia)) as H.
    change (12 / 12) with 1 in H. change (12 mod 12 + 1) with 1 in H.
    replace (y - 1 + 1) with y in H by lia.
    replace (JsDate.days_from_civil y 1 1 - 1)
      with (JsDate.days_from_civil (y - 1) 12 (JsDate.daysIn (y - 1) 12)) by lia.
    rewrite civil_roundtrip; [reflexivity | lia | vm_compute; split; discriminate].
  - apply Z.eqb_neq in E.
    pose proof (days_from_civil_next_month y (m - 1) ltac:(lia)) as H.
    replace ((m - 1) / 12) with 0 in H by dlia.
    replace ((m - 1) mod 12 + 1) with m in H by dlia.
    replace (y + 0) with y in H by lia.
    replace (JsDate.days_from_civil y m 1 - 1)
      with (JsDate.days_from_civil y (m - 1) (JsDate.daysIn y (m - 1))) by lia.
    rewrite civil_roundtrip; [reflexivity | lia |].
    unfold JsDate.daysIn.
    repeat match goal with |- context [if ?b then _ else _] => destruct b end; lia.
Qed.

Lemma getMonthsWithEvents_east tz p y m :
  0 <= tz <= 840 -> Forall calendarDate (allEventos p) ->
  In {| year := Some y; month := Some m |} (getMonthsWithEvents tz p)
  <-> exists e d, In e (allEventos p) /\ JsDate.isoFields (data e) = Some (y, m, d).
Proof.
  intros Htz Hall. rewrite getMonthsWithEvents_In. rewrite Forall_forall in Hall.
  split.
  - intros (e & He & Hm). destruct (Hall e He) as (y' & m' & d' & Hs & Hd).
    rewrite (monthOf_east tz e y' m' d' Htz Hs Hd) in Hm.
    injection Hm as <- <-. eauto.
  - intros (e & d & He & Hs). exists e. split; auto.
    destruct (Hall e He) as (y' & m' & d' & Hs' & Hd).
    rewrite Hs in Hs'. injection Hs' as <- <- <-.
    now apply (monthOf_east tz e y m d).
Qed.

(** * Further properties of the script *)

(** ** The months with events *)



Lemma strongly_sorted_strict (l : list YearMonth) :
  StronglySorted monthBefore l -> NoDup l -> Forall isNumbered l ->
  StronglySorted monthStrictlyBefore l.
Proof.
  induction 1 as [|a l Hs IH Ha]; intros Hnd Hnum; constructor.
  - inversion Hnd; inversion Hnum; subst. auto.
  - inversion Hnd as [|? ? Hni _]; inversion Hnum as [|? ? Hna Hnl]; subst.
    rewrite Forall_forall in *. intros b Hb.
    specialize (Ha b Hb). specialize (Hnl b Hb).
    unfold monthBefore, monthStrictlyBefore, isNumbered in *.
    destruct a as [[ya|] [ma|]], b as [[yb|] [mb|]]; simpl in *;
      try (destruct Hna; congruence); try (destruct Hnl; congruence).
    destruct (Z.eq_dec ya yb) as [Ey|Ey]; [|lia].
    destruct (Z.eq_dec ma mb) as [Em|Em]; [|lia].
    subst. contradiction.
Qed.

Lemma getMonthsWithEvents_numbered_all tz p :
  Forall (fun e => JsDate.parse (data e) <> None) (allEventos p) ->
  Forall isNumbered (getMonthsWithEvents tz p).
Proof.
  intros Hvalid. apply Forall_forall. intros ym Hym.
  apply getMonthsWithEvents_In in Hym. destruct Hym as (e & He & <-).
  rewrite Forall_forall in Hvalid. specialize (Hvalid e He).
  unfold isNumbered, monthOf, JsDate.getFullYear, JsDate.getMonth, JsDate.localDate.
  destruct (JsDate.parse (data e)); [|congruence].
  cbn [option_map year month]. split; discriminate.
Qed.

(** X2: when the date of every event parses, the months
    [getMonthsWithEvents] returns are numbers and go strictly up, by year and
    within a year by month, in every time zone. *)
Theorem getMonthsWithEvents_ascending (tz : Z) (p : Page) :
  Forall (fun e => JsDate.parse (data e) <> None) (allEventos p) ->
  StronglySorted monthStrictlyBefore (getMonthsWithEvents tz p)
  /\ Forall (fun ym => year ym <> None /\ month ym <> None)
            (getMonthsWithEvents tz p).
Proof.
  intros Hvalid. split; [|now apply getMonthsWithEvents_numbered_all].
  apply strongly_sorted_strict.
  - now apply getMonthsWithEvents_sorted.
  - apply getMonthsWithEvents_NoDup.
  - now apply getMonthsWithEvents_numbered_all.
Qed.

Lemma getMonthsWithEvents_ascending_witness :
  StronglySorted monthStrictlyBefore
    (getMonthsWithEvents Sample.brasilia
       (Sample.page [Sample.jantar; Sample.visita; Sample.festa; Sample.reuniao]))
  /\ Forall (fun ym => year ym <> None /\ month ym <> None)
            (getMonthsWithEvents Sample.brasilia
               (Sample.page [Sample.jantar; Sample.visita; Sample.festa; Sample.reuniao])).
Proof.
  apply (getMonthsWithEvents_ascending Sample.brasilia
           (Sample.page [Sample.jantar; Sample.visita; Sample.festa; Sample.reuniao])).
  repeat constructor; vm_compute; discriminate.
Defined.

(** X3: at UTC and east of it, when the date strings are dates of the
    calendar, the months [getMonthsWithEvents] returns are the years and
    months written in the date strings of the events, and no other. *)
Theorem getMonthsWithEvents_east_of_utc (tz : Z) (p : Page) :
  0 <= tz <= 840 ->
  Forall calendarDate (allEventos p) ->
  forall ym,
    In ym (getMonthsWithEvents tz p)
    <-> exists e y m d,
          In e (allEventos p)
          /\ JsDate.isoFields (data e) = Some (y, m, d)
          /\ ym = {| year := Some y; month := Some m |}.
Proof.
  intros Htz Hall ym. rewrite getMonthsWithEvents_In.
  rewrite Forall_forall in Hall. split.
  - intros (e & He & <-). destruct (Hall e He) as (y & m & d & Hs & Hd).
    exists e, y, m, d. repeat split; auto.
    now apply (monthOf_east tz e y m d).
  - intros (e & y & m & d & He & Hs & ->). exists e. split; auto.
    destruct (Hall e He) as (y' & m' & d' & Hs' & Hd).
    rewrite Hs in Hs'. injection Hs' as <- <- <-.
    now apply (monthOf_east tz e y m d).
Qed.

Lemma getMonthsWithEvents_east_of_utc_witness :
  In {| year := Some 2026; month := Some 3 |}
     (getMonthsWithEvents 0 (Sample.page [Sample.posse; Sample.visita]))
  <-> exists e y m d,
        In e [Sample.posse; Sample.visita]
        /\ JsDate.isoFields (data e) = Some (y, m, d)
        /\ {| year := Some 2026; month := Some 3 |}
           = {| year := Some y; month := Some m |}.
Proof.
  apply (getMonthsWithEvents_east_of_utc 0 (Sample.page [Sample.posse; Sample.visita])).
  - lia.
  - repeat constructor.
    + exists 2026, 3, 1. split; [reflexivity | vm_compute; discriminate].
    + exists 2026, 4, 10. split; [reflexivity | vm_compute; discriminate].
Defined.

(** X4: west of UTC an event dated the first day of a month gives
    [getMonthsWithEvents] the month before, the last month of the year before
    for a first of January, and not the month of its date. *)
Theorem getMonthsWithEvents_first_day_west (tz : Z) (p : Page) (e : Evento) (y m : Z) :
  -720 <= tz < 0 ->
  In e (allEventos p) ->
  JsDate.isoFields (data e) = Some (y, m, 1) ->
  In (monthBeforeOf y m) (getMonthsWithEvents tz p)
  /\ {| year := JsDate.getFullYear tz (JsDate.parse (data e));
        month := option_map (fun m => m + 1)
                   (JsDate.getMonth tz (JsDate.parse (data e))) |}
     <> {| year := Some y; month := Some m |}.
Proof.
  intros Htz He Hs.
  pose proof (monthOf_first_day_west tz e y m Htz Hs) as H.
  fold (monthBeforeOf y m) in H. split.
  - apply getMonthsWithEvents_In. exists e. auto.
  - change (monthOf tz e <> {| year := Some y; month := Some m |}).
    rewrite H. unfold monthBeforeOf.
    destruct (m =? 1) eqn:E; intros H'; injection H'; intros; lia.
Qed.

Lemma getMonthsWithEvents_first_day_west_witness :
  In (monthBeforeOf 2026 3)
     (getMonthsWithEvents Sample.brasilia (Sample.page [Sample.posse])).
Proof.
  refine (proj1 (getMonthsWithEvents_first_day_west Sample.brasilia
                   (Sample.page [Sample.posse]) Sample.posse 2026 3 _ _ eq_refl)).
  - unfold Sample.brasilia. lia.
  - now left.
Defined.

(** ** What the views hold *)


Lemma group_values tz evs :
  map snd (groupEventosByMonth tz evs)
  = map (fun k => filter (inMonth tz k) evs)
        (JsObject.keys (groupEventosByMonth tz evs)).
Proof.
  unfold JsObject.keys. rewrite map_map. apply map_ext_in.
  intros [k l] Hin. apply group_In in Hin. destruct Hin as [_ ->]. reflexivity.
Qed.

Lemma listGroups_events tz p :
  Permutation (List.concat (map snd (listGroups tz p))) (getFilteredEventos p).
Proof.
  unfold listGroups. cbv zeta. rewrite map_map. cbn [snd].
  set (evs := getFilteredEventos p).
  transitivity (List.concat (map snd (groupEventosByMonth tz evs))).
  - rewrite group_values, <- !flat_map_concat_map.
    apply Permutation_flat_map. unfold monthKeys. apply sort_perm.
  - apply (group_fold_concat tz evs []).
Qed.

(** X6: the rows of the list, over all its month groups, are the rows of
    the events that pass the filter, one row for each, every event once. *)
Theorem list_rows_are_filtered_events (tz : Z) (p : Page) :
  Permutation
    (flat_map rowsOf (eventos_container (renderEventsList tz p)))
    (map (renderEventItem tz) (getFilteredEventos p))
  /\ List.length (flat_map rowsOf (eventos_container (renderEventsList tz p)))
     = List.length (getFilteredEventos p).
Proof.
  assert (H : Permutation
                (flat_map rowsOf (eventos_container (renderEventsList tz p)))
                (map (renderEventItem tz) (getFilteredEventos p))).
  { rewrite renderEventsList_eq. cbn [eventos_container setEventosContainer].
    rewrite <- (listGroups_events tz p).
    rewrite flat_map_concat_map, map_map, concat_map, map_map.
    apply Permutation_refl'. f_equal.
    apply map_ext. intros g. now rewrite renderMonthGroup_eq. }
  split; [exact H|].
  rewrite (Permutation_length H). apply length_map.
Qed.

(** X7: a day cell carries [has-event] exactly when some event has the date
    string of the cell; a cell without one is the bare cell, with the number
    of the day and neither color nor tooltip. *)
Theorem day_cell_marked_iff (evs : list Evento) (ym : YearMonth) (day : Z) :
  (hasClass "has-event" (renderDayCell evs ym day) = true
   <-> exists e, In e evs /\ data e = dateStr ym day)
  /\ ((forall e, In e evs -> data e <> dateStr ym day) ->
      renderDayCell evs ym day = plainDayCell day)
  /\ textContent (renderDayCell evs ym day) = JsString.ofNumber day.
Proof.
  rewrite renderDayCell_eq.
  destruct (filter (fun e => String.eqb (data e) (dateStr ym day)) evs)
    as [|e l] eqn:F.
  - split; [|split; [auto | reflexivity]]. split; [discriminate|].
    intros (e & He & Hd).
    assert (Hin : In e (filter (fun e => String.eqb (data e) (dateStr ym day)) evs)).
    { apply filter_In. split; auto. now apply String.eqb_eq. }
    rewrite F in Hin. destruct Hin.
  - assert (Hin : In e evs /\ data e = dateStr ym day).
    { assert (H : In e (e :: l)) by now left.
      rewrite <- F in H. apply filter_In in H. destruct H as [H1 H2].
      now apply String.eqb_eq in H2. }
    split; [|split].
    + split; [intros _; exists e; exact Hin|]. intros _.
      unfold hasClass. rewrite markEvento_classes. reflexivity.
    + intros Hno. destruct Hin as [H1 H2]. destruct (Hno e H1 H2).
    + reflexivity.
Qed.

(** X8: the two drawings do not touch each other's container, and the page
    after both is the same in either order; neither changes the events, the
    filter, the info texts, the logo or the console. *)
Theorem renderers_commute (tz : Z) (p : Page) :
  renderEventsList tz (renderCalendars tz p)
  = renderCalendars tz (renderEventsList tz p)
  /\ calendars_container (renderEventsList tz p) = calendars_container p
  /\ eventos_container (renderCalendars tz p) = eventos_container p
  /\ (forall q, q = renderEventsList tz p \/ q = renderCalendars tz p ->
        allEventos q = allEventos p /\ currentFilter q = currentFilter p
        /\ local_info q = local_info p /\ contact_info q = contact_info p
        /\ logo q = logo p /\ console q = console p).
Proof.
  split; [|split; [|split]].
  - rewrite !renderEventsList_eq, !renderCalendars_eq. reflexivity.
  - now rewrite renderEventsList_eq.
  - now rewrite renderCalendars_eq.
  - intros q [-> | ->]; [rewrite renderEventsList_eq | rewrite renderCalendars_eq];
      repeat split.
Qed.

(** ** The filter buttons *)

Lemma isActive_removeActive b : isActive (removeActive b) = false.
Proof.
  unfold isActive, removeActive. cbn [btn_classList].
  induction (btn_classList b) as [|c l IH]; [reflexivity|].
  cbn [filter]. destruct (String.eqb c "active") eqn:E; cbn [negb existsb]; auto.
  rewrite String.eqb_sym in E. rewrite E. exact IH.
Qed.

Lemma isActive_addActive b : isActive (addActive b) = true.
Proof.
  unfold isActive, addActive. cbn [btn_classList].
  destruct (existsb (String.eqb "active") (btn_classList b)) eqn:E; auto.
  rewrite existsb_app. cbn [existsb]. rewrite String.eqb_refl.
  now rewrite orb_true_r.
Qed.

Lemma nth_error_atIndex f (btns : list FilterBtn) : forall i j,
  nth_error (atIndex i f btns) j
  = if Nat.eqb j i then option_map f (nth_error btns j) else nth_error btns j.
Proof.
  induction btns as [|b btns IH]; intros i j; simpl.
  - destruct (Nat.eqb j i); destruct j; reflexivity.
  - destruct i as [|i], j as [|j]; simpl; auto.
Qed.

Lemma atIndex_dataset i f btns :
  (forall b, dataset_filter (f b) = dataset_filter b) ->
  map dataset_filter (atIndex i f btns) = map dataset_filter btns.
Proof.
  intros Hf. revert i. induction btns as [|b btns IH]; intros i; simpl; auto.
  destruct i; simpl; [now rewrite Hf | now rewrite IH].
Qed.

(** X9: a click on a filter button leaves that button, and no other, with
    the class [active], keeps the filter of every button, makes the filter of
    the clicked button the current one and draws the list for it; the events
    and the calendars stay as they were. *)
Theorem filterBtn_click_selects (tz : Z) (i : nat) (d : Document) (btn : FilterBtn) :
  nth_error (filterBtns d) i = Some btn ->
  let d' := filterBtn_click tz i d in
  (forall j b, nth_error (filterBtns d') j = Some b ->
               (isActive b = true <-> j = i))
  /\ map dataset_filter (filterBtns d') = map dataset_filter (filterBtns d)
  /\ currentFilter (page d') = dataset_filter btn
  /\ eventos_container (page d')
     = eventos_container (renderEventsList tz (page d'))
  /\ allEventos (page d') = allEventos (page d)
  /\ calendars_container (page d') = calendars_container (page d).
Proof.
  intros Hbtn d'. subst d'. unfold filterBtn_click. rewrite Hbtn.
  cbn [filterBtns page]. split; [|split; [|split; [|split; [|split]]]].
  - intros j b Hj. rewrite nth_error_atIndex, nth_error_map in Hj.
    destruct (Nat.eqb j i) eqn:E.
    + apply Nat.eqb_eq in E.
      destruct (nth_error (filterBtns d) j); [|discriminate].
      injection Hj as <-. rewrite isActive_addActive. tauto.
    + apply Nat.eqb_neq in E.
      destruct (nth_error (filterBtns d) j); [|discriminate].
      injection Hj as <-. rewrite isActive_removeActive.
      split; [discriminate | contradiction].
  - rewrite atIndex_dataset by reflexivity. rewrite map_map. reflexivity.
  - unfold clickFilter. now rewrite renderEventsList_eq.
  - unfold clickFilter. rewrite !renderEventsList_eq. reflexivity.
  - unfold clickFilter. now rewrite renderEventsList_eq.
  - unfold clickFilter. now rewrite renderEventsList_eq.
Qed.

Lemma filterBtn_click_selects_witness :
  let d := {| filterBtns :=
                [ {| dataset_filter := "Todas"; btn_classList := ["filter-btn"; "active"] |};
                  {| dataset_filter := "Feriado"; btn_classList := ["filter-btn"] |} ];
              page := Sample.page [Sample.festa; Sample.sessao] |} in
  let d' := filterBtn_click Sample.brasilia 1 d in
  (forall j b, nth_error (filterBtns d') j = Some b ->
               (isActive b = true <-> j = 1%nat))
  /\ map dataset_filter (filterBtns d') = ["Todas"; "Feriado"]
  /\ currentFilter (page d') = "Feriado".
Proof.
  intros d d'.
  pose proof (filterBtn_click_selects Sample.brasilia 1 d
                {| dataset_filter := "Feriado"; btn_classList := ["filter-btn"] |}
                eq_refl) as (H1 & H2 & H3 & _).
  split; [exact H1 | split; [exact H2 | exact H3]].
Defined.

(** ** Loads and clicks, one after the other *)

Lemma loadData_page tz outcome p :
  fst (loadData tz outcome p)
  = match outcome with
    | Response (Some body) =>
        let q :=
          match config body with
          | Some c =>
              setInfo (setAllEventos p (eventosOf body))
                (JsString.orElse (config_local c) "Rua José Pereira Liberato, 1178")
                (JsString.orElse (config_contact c) "(47) 99286-0936 (Arthur Ayad)")
                (match config_logo c, logo p with
                 | Some src, Some _ => if String.eqb src "" then logo p else Some src
                 | _, _ => logo p
                 end)
          | None => setAllEventos p (eventosOf body)
          end in
        renderEventsList tz (renderCalendars tz q)
    | NetworkError reason =>
        consoleError p ("Erro ao carregar dados: " ++ reason)%string
    | Response None =>
        consoleError p ("Erro ao carregar dados: " ++ "SyntaxError")%string
    end.
Proof.
  destruct outcome as [reason | [body|]]; reflexivity.
Qed.





Lemma handle_store tz d ev :
  allEventos (page (handle tz d ev))
  = match ev with
    | Loaded (Response (Some body)) => eventosOf body
    | _ => allEventos (page d)
    end
  /\ currentFilter (page (handle tz d ev))
     = match ev with
       | Clicked i =>
           match nth_error (filterBtns d) i with
           | Some btn => dataset_filter btn
           | None => currentFilter (page d)
           end
       | _ => currentFilter (page d)
       end
  /\ map dataset_filter (filterBtns (handle tz d ev))
     = map dataset_filter (filterBtns d).
Proof.
  destruct ev as [outcome | i]; cbn [handle page filterBtns].
  - rewrite loadData_page. destruct outcome as [reason | [body|]];
      try (repeat split; reflexivity).
    cbv zeta. rewrite renderEventsList_eq, renderCalendars_eq.
    destruct (config body); repeat split.
  - unfold filterBtn_click. destruct (nth_error (filterBtns d) i) as [btn|] eqn:E;
      cbn [page filterBtns]; [|repeat split].
    unfold clickFilter. rewrite renderEventsList_eq.
    split; [reflexivity|]. split; [reflexivity|].
    rewrite atIndex_dataset by reflexivity. rewrite map_map. reflexivity.
Qed.

Lemma nth_error_dataset (btns btns' : list FilterBtn) i :
  map dataset_filter btns = map dataset_filter btns' ->
  option_map dataset_filter (nth_error btns i)
  = option_map dataset_filter (nth_error btns' i).
Proof. intros H. rewrite <- !nth_error_map. now rewrite H. Qed.

(** X11: after any loads and clicks the events of the page are those of
    the last body that came, as a whole and whatever was there before, or the
    events it started with when no body came: a failed load never clears
    them.  The filter is that of the last button clicked, or the one it
    started with: no load resets it. *)
Theorem last_load_and_last_click_win (tz : Z) (evs : list PageEvent) (d : Document) :
  allEventos (page (run tz evs d)) = lastLoaded evs (allEventos (page d))
  /\ currentFilter (page (run tz evs d))
     = lastClicked (filterBtns d) evs (currentFilter (page d)).
Proof.
  unfold run, lastLoaded, lastClicked.
  revert d. induction evs as [|ev evs IH]; intros d; simpl; [split; reflexivity|].
  destruct (handle_store tz d ev) as (Ha & Hf & Hb).
  destruct (IH (handle tz d ev)) as [IHa IHf].
  rewrite IHa, IHf, Ha, Hf. split.
  - destruct ev as [[reason | [body|]] | i]; reflexivity.
  - assert (Hfold : forall l (b1 b2 : list FilterBtn) f,
              map dataset_filter b1 = map dataset_filter b2 ->
              fold_left
                (fun f ev =>
                   match ev with
                   | Clicked i =>
                       match nth_error b1 i with
                       | Some btn => dataset_filter btn
                       | None => f
                       end
                   | _ => f
                   end) l f
              = fold_left
                  (fun f ev =>
                     match ev with
                     | Clicked i =>
                         match nth_error b2 i with
                         | Some btn => dataset_filter btn
                         | None => f
                         end
                     | _ => f
                     end) l f).
    { induction l as [|e l IHl]; intros b1 b2 f Hb12; simpl; auto.
      rewrite (IHl b1 b2) by assumption. f_equal.
      destruct e as [o | i]; auto.
      pose proof (nth_error_dataset b1 b2 i Hb12) as Hn.
      destruct (nth_error b1 i), (nth_error b2 i); simpl in Hn; congruence. }
    rewrite (Hfold evs _ _ _ Hb).
    destruct ev as [[reason | [body|]] | i]; reflexivity.
Qed.

(** X12: a load that brings a body with a [config] never leaves an info text
    empty: each is the text of the [config], or its fixed default when that
    text is missing or empty.  The source of the logo changes only when the
    [config] holds a logo that is not empty and the page has a logo; a body
    without [config] leaves the three as they were. *)
Theorem loadData_info (tz : Z) (body : Data) (p : Page) :
  let p' := fst (loadData tz (Response (Some body)) p) in
  match config body with
  | Some c =>
      local_info p'
      = JsString.orElse (config_local c) "Rua José Pereira Liberato, 1178"
      /\ contact_info p'
         = JsString.orElse (config_contact c) "(47) 99286-0936 (Arthur Ayad)"
      /\ local_info p' <> "" /\ contact_info p' <> ""
      /\ (logo p' <> logo p ->
          exists src, config_logo c = Some src /\ src <> ""
                      /\ logo p <> None /\ logo p' = Some src)
      /\ (logo p = None -> logo p' = None)
  | None =>
      local_info p' = local_info p /\ contact_info p' = contact_info p
      /\ logo p' = logo p
  end.
Proof.
  cbv zeta. rewrite loadData_page. cbv zeta.
  rewrite renderEventsList_eq, renderCalendars_eq.
  destruct (config body) as [c|]; [|repeat split].
  cbn [local_info contact_info logo setEventosContainer setCalendarsContainer
       setInfo setAllEventos].
  split; [reflexivity|]. split; [reflexivity|].
  split; [destruct (config_local c) as [[|? ?]|]; discriminate|].
  split; [destruct (config_contact c) as [[|? ?]|]; discriminate|].
  split.
  - destruct (config_logo c) as [src|]; [|congruence].
    destruct (logo p) as [old|]; [|congruence].
    destruct (String.eqb src "") eqn:E; [congruence|].
    apply String.eqb_neq in E. intros _. exists src. repeat split; auto. discriminate.
  - intros ->. now destruct (config_logo c).
Qed.

(** ** The date string of a cell *)

Lemma digit_digitChar x : In x decimalDigits -> JsDate.digit (digitChar x) = Some x.
Proof.
  unfold decimalDigits. simpl.
  intros H. repeat (destruct H as [<- | H]; [reflexivity|]). destruct H.
Qed.

Lemma In_decimalDigits x : 0 <= x <= 9 -> In x decimalDigits.
Proof. unfold decimalDigits. simpl. lia. Qed.

Lemma padStart2_number n :
  0 <= n <= 99 ->
  JsString.padStart2 (JsString.ofNumber n)
  = String (digitChar (n / 10)) (String (digitChar (n mod 10)) "").
Proof.
  intros H. rewrite <- padStart2_two by (apply In_decimalDigits; dlia).
  do 2 f_equal. dlia.
Qed.

Lemma ofNumber_year y :
  1000 <= y <= 9999 ->
  JsString.ofNumber y
  = String (digitChar (y / 1000)) (String (digitChar (y / 100 mod 10))
      (String (digitChar (y / 10 mod 10)) (String (digitChar (y mod 10)) ""))).
Proof.
  intros H. rewrite <- ofNumber_four.
  - f_equal. dlia.
  - unfold decimalDigits. simpl. dlia.
  - apply In_decimalDigits. dlia.
  - apply In_decimalDigits. dlia.
  - apply In_decimalDigits. dlia.
Qed.

Lemma isoFields_dateStr y m d :
  1000 <= y <= 9999 -> 1 <= m <= 12 -> 1 <= d <= 31 ->
  JsDate.isoFields (dateStr {| year := Some y; month := Some m |} d)
  = Some (y, m, d).
Proof.
  intros Hy Hm Hd. unfold dateStr. cbn [year month JsString.ofNull].
  rewrite ofNumber_year, !padStart2_number by lia.
  cbn [String.append]. unfold JsDate.isoFields. cbn [list_ascii_of_string].
  replace (JsDate.isDash "-" && JsDate.isDash "-") with true by reflexivity.
  unfold JsDate.num4, JsDate.num2.
  rewrite !digit_digitChar by (apply In_decimalDigits; dlia).
  replace (100 * (10 * (y / 1000) + y / 100 mod 10) + (10 * (y / 10 mod 10) + y mod 10))
    with y by dlia.
  replace (10 * (m / 10) + m mod 10) with m by dlia.
  replace (10 * (d / 10) + d mod 10) with d by dlia.
  replace ((1 <=? m) && (m <=? 12) && (1 <=? d) && (d <=? 31)) with true by lia.
  reflexivity.
Qed.

(** X13: for a year of four digits the string [renderCalendars] builds for
    the cell of a day is the date-only string of that year, month and day:
    [Date.parse] reads these three back from it, and an event marks the cell
    exactly when its own date string holds these three. *)
Theorem cell_matches_date_fields (y m d : Z) (evs : list Evento) :
  1000 <= y <= 9999 -> 1 <= m <= 12 -> 1 <= d <= 31 ->
  JsDate.isoFields (dateStr {| year := Some y; month := Some m |} d) = Some (y, m, d)
  /\ (forall e, data e = dateStr {| year := Some y; month := Some m |} d
                <-> JsDate.isoFields (data e) = Some (y, m, d))
  /\ (hasClass "has-event"
        (renderDayCell evs {| year := Some y; month := Some m |} d) = true
      <-> exists e, In e evs /\ JsDate.isoFields (data e) = Some (y, m, d)).
Proof.
  intros Hy Hm Hd.
  assert (Hiff : forall e, data e = dateStr {| year := Some y; month := Some m |} d
                           <-> JsDate.isoFields (data e) = Some (y, m, d)).
  { intros e. split.
    - intros ->. now apply isoFields_dateStr.
    - intros H. symmetry. apply dateStr_isoFields; [assumption | lia]. }
  split; [now apply isoFields_dateStr|]. split; [exact Hiff|].
  rewrite renderDayCell_eq.
  destruct (filter _ evs) as [|e l] eqn:F.
  - split; [discriminate|]. intros (e & He & Hs). apply Hiff in Hs.
    assert (Hin : In e (filter (fun e => String.eqb (data e)
                                  (dateStr {| year := Some y; month := Some m |} d)) evs)).
    { apply filter_In. split; auto. now apply String.eqb_eq. }
    rewrite F in Hin. destruct Hin.
  - split; [|intros _; unfold hasClass; now rewrite markEvento_classes].
    intros _. exists e.
    assert (H : In e (e :: l)) by now left.
    rewrite <- F in H. apply filter_In in H. destruct H as [H1 H2].
    apply String.eqb_eq in H2. split; auto. now apply Hiff.
Qed.

Lemma cell_matches_date_fields_witness :
  hasClass "has-event"
    (renderDayCell [Sample.festa; Sample.visita]
       {| year := Some 2026; month := Some 4 |} 10) = true
  <-> exists e, In e [Sample.festa; Sample.visita]
                /\ JsDate.isoFields (data e) = Some (2026, 4, 10).
Proof.
  refine (proj2 (proj2 (cell_matches_date_fields 2026 4 10
                          [Sample.festa; Sample.visita] _ _ _))); lia.
Defined.

(** ** The day the list shows *)

(** X14: the number on the date box of a row is the day of the date string
    at UTC and east of it, and the day before west of it, for a date of the
    calendar that is not the first of its month. *)
Theorem list_day_number (tz : Z) (e : Evento) (y m d : Z) :
  realZone tz ->
  JsDate.isoFields (data e) = Some (y, m, d) -> d <= JsDate.daysIn y m ->
  0 <= tz \/ 2 <= d ->
  option_map textContent (dateBoxOf (renderEventItem tz e))
  = Some (JsString.ofNumber (if tz <? 0 then d - 1 else d)).
Proof.
  intros Htz Hs Hd Hw.
  pose proof (localDate_string tz _ y m d Htz Hs Hd Hw) as Hl.
  unfold renderEventItem, dateBoxOf. cbv zeta.
  cbn [children Dom.appendChild Dom.setClassName Dom.createElement app
       hd_error option_map textContent Dom.setBackgroundColor Dom.setTextContent].
  unfold JsDate.getDate. rewrite Hl. reflexivity.
Qed.

Lemma list_day_number_witness :
  option_map textContent (dateBoxOf (renderEventItem Sample.brasilia Sample.festa))
  = Some (JsString.ofNumber (if Sample.brasilia <? 0 then 15 - 1 else 15)).
Proof.
  refine (list_day_number Sample.brasilia Sample.festa 2026 3 15 _ eq_refl _ _).
  - unfold realZone, Sample.brasilia. lia.
  - vm_compute. discriminate.
  - right. lia.
Defined.

(** ** Dates that do not parse *)







Lemma datable_null : datable {| year := None; month := None |}.
Proof. unfold datable. simpl. lia. Qed.




(** ** The size of a grid *)

Lemma daysInMonth_drawn tz p ym :
  realZone tz -> In ym (getMonthsWithEvents tz p) ->
  exists n, daysInMonth tz ym = Some n /\ 28 <= n <= 31.
Proof.
  intros Htz Hym.
  pose proof Hym as Hin. apply getMonthsWithEvents_In in Hin.
  destruct Hin as (e & _ & He).
  destruct (monthOf_cases tz e Htz) as [H | (y & m & H & Hy & Hm)];
    rewrite H in He; subst ym.
  - rewrite daysInMonth_value by (auto using datable_null).
    eexists. split; [reflexivity|]. vm_compute. split; discriminate.
  - rewrite daysInMonth_calendar by assumption.
    eexists. split; [reflexivity|]. unfold JsDate.daysIn.
    repeat match goal with |- context [if ?b then _ else _] => destruct b end; lia.
Qed.

(** X17: the grid of every calendar [renderCalendars] draws has from 28 to
    31 day cells and at most 6 blank cells, so from 35 to 44 cells with the
    headers: never more than 6 rows of 7 below the headers. *)
Theorem grid_size_bounds (tz : Z) (p : Page) (cal : Node) :
  realZone tz ->
  In cal (calendars_container (renderCalendars tz p)) ->
  (28 <= List.length (filter isDay (gridOf cal)) <= 31)%nat
  /\ (List.length (filter isBlank (gridOf cal)) <= 6)%nat
  /\ (35 <= List.length (gridOf cal) <= 44)%nat.
Proof.
  intros Htz Hcal. apply renderCalendars_blocks in Hcal.
  destruct Hcal as (ym & Hym & ->).
  pose proof (getMonthsWithEvents_datable tz p ym Htz Hym) as Hd.
  destruct (firstDay_range tz ym Htz Hd) as (w & Hw & Hwr).
  destruct (daysInMonth_drawn tz p ym Htz Hym) as (n & Hn & Hnr).
  rewrite days_of_grid, blanks_of_grid, gridOf_renderCalendar, Hw, Hn.
  cbn [blankCount dayNumbers].
  rewrite !length_app, repeat_length, !length_map, length_seq.
  cbn [List.length dayHeaders]. lia.
Qed.

Lemma grid_size_bounds_witness :
  let cal := renderCalendar Sample.brasilia [Sample.festa]
               {| year := Some 2026; month := Some 3 |} in
  (28 <= List.length (filter isDay (gridOf cal)) <= 31)%nat
  /\ (List.length (filter isBlank (gridOf cal)) <= 6)%nat
  /\ (35 <= List.length (gridOf cal) <= 44)%nat.
Proof.
  intros cal.
  assert (Htz : realZone Sample.brasilia)
    by (unfold realZone, Sample.brasilia; lia).
  exact (grid_size_bounds Sample.brasilia (Sample.page [Sample.festa]) cal Htz
           (or_introl eq_refl)).
Defined.

(** ** Categories with a style *)

(** X18: an event whose category is a key of [categoryColors] has the color
    of its category on the date box of its row and on the cell it marks, and
    the cell carries the class [categoryCssClasses] gives the category; two
    categories of the tables never share a color or a class. *)
Theorem known_category_style (tz : Z) (e : Evento) (day : Z) (color : string) :
  JsObject.get categoryColors (categoria e) = Some color ->
  option_map backgroundColor (dateBoxOf (renderEventItem tz e)) = Some color
  /\ backgroundColor (markEvento (plainDayCell day) e) = color
  /\ (exists cls,
        JsObject.get categoryCssClasses (categoria e) = Some cls
        /\ classList (markEvento (plainDayCell day) e)
           = ["day-cell"; "has-event"; cls])
  /\ (forall c, JsObject.get categoryColors c = Some color -> c = categoria e)
  /\ (forall c, JsObject.get categoryCssClasses c <> None ->
                JsObject.get categoryCssClasses c
                = JsObject.get categoryCssClasses (categoria e) ->
                c = categoria e).
Proof.
  intros Hc.
  assert (Hkeys : In (categoria e, color) categoryColors) by now apply get_Some_In.
  assert (Hne : JsString.orElse (Some color) "#999" = color).
  { unfold categoryColors in Hkeys. simpl in Hkeys.
    repeat (destruct Hkeys as [[= _ <-] | Hkeys]; [reflexivity|]). destruct Hkeys. }
  split; [|split; [|split; [|split]]].
  - unfold renderEventItem, dateBoxOf. cbv zeta.
    cbn [children Dom.appendChild Dom.setClassName Dom.createElement app
         hd_error option_map backgroundColor Dom.setBackgroundColor].
    now rewrite Hc, Hne.
  - unfold markEvento. cbv zeta.
    cbn [backgroundColor Dom.setAttribute Dom.setBackgroundColor].
    now rewrite Hc.
  - rewrite markEvento_classes.
    unfold categoryColors in Hkeys. simpl in Hkeys.
    repeat (destruct Hkeys as [[= <- _] | Hkeys];
            [eexists; split; reflexivity|]).
    destruct Hkeys.
  - intros c Hcc. apply get_Some_In in Hcc.
    unfold categoryColors in Hkeys, Hcc. simpl in Hkeys, Hcc.
    repeat (destruct Hkeys as [[= <- <-] | Hkeys]; [|]); try contradiction;
      repeat (destruct Hcc as [Hcc | Hcc]; [|]); try contradiction;
      first [now injection Hcc | discriminate Hcc].
  - intros c Hsome Heq.
    destruct (JsObject.get categoryCssClasses c) as [cls|] eqn:G; [|congruence].
    symmetry in Heq. apply get_Some_In in G, Heq.
    unfold categoryCssClasses in G, Heq. simpl in G, Heq.
    repeat (destruct G as [G | G]; [|]); try contradiction;
      repeat (destruct Heq as [Heq | Heq]; [|]); try contradiction;
      injection G as <- <-; first [now injection Heq | discriminate Heq].
Qed.

Lemma known_category_style_witness :
  option_map backgroundColor
    (dateBoxOf (renderEventItem Sample.brasilia Sample.festa)) = Some "#e74c3c"
  /\ backgroundColor (markEvento (plainDayCell 15) Sample.festa) = "#e74c3c"
  /\ (exists cls,
        JsObject.get categoryCssClasses "Feriado" = Some cls
        /\ classList (markEvento (plainDayCell 15) Sample.festa)
           = ["day-cell"; "has-event"; cls]).
Proof.
  pose proof (known_category_style Sample.brasilia Sample.festa 15 "#e74c3c" eq_refl)
    as (H1 & H2 & H3 & _).
  split; [exact H1 | split; [exact H2 | exact H3]].
Defined.
